(** * The adversarial training loop of [tf_version/training_loop.py]

    A shallow embedding of [train_step] and [train]: the module-level
    globals become one record threaded through a state-and-exception monad,
    the external collaborators (the two networks, the loss functions, the
    optimizers, the random source) become the fields of a type class, and
    every observable side effect (progress bar, image sampling, checkpoint,
    export, prints) is appended to an output trace. *)

From Stdlib Require Import ZArith List Ascii String Bool Lia.
Import ListNotations.
Open Scope Z_scope.

(** ** Python exceptions and outcomes *)

Inductive exn : Type :=
| ZeroDivisionError
| OverflowError
| IndexError
| UnboundLocalError (name : string).

Inductive outcome (A : Type) : Type :=
| Ok (a : A)
| Raise (e : exn).
Arguments Ok {A} a.
Arguments Raise {A} e.

(** ** [int / int], [np.ceil] and [int()] on binary64

    A finite double is kept as a dyadic number [man * 2 ^ exp].  Python's
    true division of two integers is correctly rounded (to nearest, ties to
    even, 53 significant bits, least exponent -1074) and raises instead of
    producing an infinity. *)
Module Float64.

Record float : Type := mk_float { man : Z; exp : Z }.

(** round [n / d] to the nearest integer, ties to even ([0 <= n], [0 < d]) *)
Definition round_half_even (n d : Z) : Z :=
  let q := n / d in
  let r := n mod d in
  if 2 * r <? d then q
  else if d <? 2 * r then q + 1
  else if Z.even q then q else q + 1.

(** [floor (log2 (x / y))] for [0 < x], [0 < y] *)
Definition quot_log2 (x y : Z) : Z :=
  let d := Z.log2 x - Z.log2 y in
  if y * 2 ^ Z.max 0 d <=? x * 2 ^ Z.max 0 (- d) then d else d - 1.

(** [a / b] on Python integers *)
Definition true_div (a b : Z) : outcome float :=
  if b =? 0 then Raise ZeroDivisionError
  else if a =? 0 then Ok (mk_float 0 0)
  else
    let x := Z.abs a in
    let y := Z.abs b in
    let e := Z.max (quot_log2 x y - 52) (-1074) in
    let m := round_half_even (x * 2 ^ Z.max 0 (- e)) (y * 2 ^ Z.max 0 e) in
    if 1024 <=? Z.log2 m + e then Raise OverflowError
    else Ok (mk_float (Z.sgn a * Z.sgn b * m) e).

(** [np.ceil]: the least integral double not below [x] *)
Definition ceil (x : float) : float :=
  if 0 <=? exp x then x
  else mk_float (- ((- man x) / 2 ^ (- exp x))) 0.

(** [int(x)]: truncation towards zero *)
Definition to_int (x : float) : Z :=
  if 0 <=? exp x then man x * 2 ^ exp x
  else Z.quot (man x) (2 ^ (- exp x)).

End Float64.

(** the ceiling of the exact quotient, for comparison *)
Definition ceil_quot (a b : Z) : Z := - ((- a) / b).

(** line 66: [batch_num = int(np.ceil(dataset_size / batch_size))] *)
Definition batch_num_of (dataset_size batch_size : Z) : outcome Z :=
  match Float64.true_div dataset_size batch_size with
  | Ok q => Ok (Float64.to_int (Float64.ceil q))
  | Raise e => Raise e
  end.

(** ** Tensors and the external collaborators *)

Record tensor (S : Type) : Type := mk_tensor { shape : list nat; data : list S }.
Arguments mk_tensor {S} shape data.
Arguments shape {S} t.
Arguments data {S} t.

(** number of elements of a tensor of the given shape *)
Definition numel (sh : list nat) : nat := fold_right Nat.mul 1%nat sh.

(** The carriers left abstract: floating-point scalars, the trainable
    variables of the two Keras models, their gradients, the state of the two
    Adam optimizers and the state of TensorFlow's random source. *)
Class Carriers : Type := {
  Scalar : Type;
  GenVars : Type;
  DiscVars : Type;
  GenGrads : Type;
  DiscGrads : Type;
  GenOpt : Type;
  DiscOpt : Type;
  Rng : Type
}.

(** What [training_loop.py] imports and calls but does not define: the two
    models (identified with their trainable variables, called in training
    mode), the loss functions of [losses.py], reverse-mode differentiation
    of a recorded computation, the optimizers and the random source. *)
Class Backend (C : Carriers) : Type := {
  (** the literal [0.0], [+] and [/ n] *)
  zero : Scalar;
  add : Scalar -> Scalar -> Scalar;
  div : Scalar -> Z -> Scalar;
  (** one standard-normal draw *)
  normal : Rng -> Scalar * Rng;
  (** [make_generator_model()], [make_discriminator_model()], [Adam(1e-4)] *)
  make_generator_model : Rng -> GenVars * Rng;
  make_discriminator_model : Rng -> DiscVars * Rng;
  adam_generator : GenOpt;
  adam_discriminator : DiscOpt;
  (** [generator(x, training=True)], [discriminator(x, training=True)] *)
  call_generator : GenVars -> tensor Scalar -> tensor Scalar;
  call_discriminator : DiscVars -> tensor Scalar -> tensor Scalar;
  generator_loss : tensor Scalar -> Scalar;
  discriminator_loss : tensor Scalar -> tensor Scalar -> Scalar;
  (** [tape.gradient(target, sources)]: the derivative, at the current
      value of the sources, of the recorded target as a function of them *)
  gen_gradient : (GenVars -> Scalar) -> GenVars -> GenGrads;
  disc_gradient : (DiscVars -> Scalar) -> DiscVars -> DiscGrads;
  (** [optimizer.apply_gradients(zip(grads, variables))] *)
  gen_apply_gradients : GenOpt -> GenGrads -> GenVars -> GenOpt * GenVars;
  disc_apply_gradients : DiscOpt -> DiscGrads -> DiscVars -> DiscOpt * DiscVars
}.

(** ** Module-level constants (lines 13-15, 27-28) *)

Definition EPOCHS : Z := 50.
Definition noise_dim : nat := 100.
Definition num_examples_to_generate : nat := 16.

(** [os.path.join] with POSIX separators, on two components *)
Definition ends_with_slash (a : string) : bool :=
  match String.get (String.length a - 1)%nat a with
  | Some c => Ascii.eqb c "/"%char
  | None => false
  end.

Definition path_join (a b : string) : string :=
  match String.get 0%nat b with
  | Some c =>
      if Ascii.eqb c "/"%char then b
      else if (String.length a =? 0)%nat || ends_with_slash a then (a ++ b)%string
      else (a ++ "/" ++ b)%string
  | None =>
      if (String.length a =? 0)%nat || ends_with_slash a then a
      else (a ++ "/")%string
  end.

Definition checkpoint_dir : string := "./training_checkpoints".
Definition checkpoint_prefix : string := path_join checkpoint_dir "ckpt".

Section Training.
Context {C : Carriers} {B : Backend C}.

(** a Python number in [train]: the float literal [0.0] and what is derived
    from it, or a scalar tensor *)
Inductive num : Type :=
| PyFloat (x : Scalar)
| Tensor (x : Scalar).

Definition num_val (a : num) : Scalar :=
  match a with PyFloat x => x | Tensor x => x end.

(** what a [tf.train.Checkpoint] written by [save] holds *)
Record Checkpoint : Type := mk_checkpoint {
  ck_generator_optimizer : GenOpt;
  ck_discriminator_optimizer : DiscOpt;
  ck_generator : GenVars;
  ck_discriminator : DiscVars
}.

Inductive message : Type :=
| SavingModel                        (* "Saving model..." *)
| TimeForEpoch (epoch : Z)            (* "Time for epoch {} is {} sec" *)
| GeneratorLossIs (v : num)           (* "Generator loss is {:4f}" *)
| DiscriminatorLossIs (v : num).      (* "Discriminator loss is {:4f}" *)

(** the observable side effects, in program order *)
Inductive event : Type :=
| PbarOpen (total : Z) (epoch : Z)    (* tqdm(total=.., desc="Epoch {}: ") *)
| PbarUpdate (n : Z)
| PbarClose
| GenerateAndSaveImages (model : GenVars) (epoch : Z) (test_input : tensor Scalar)
| CheckpointSave (ck : Checkpoint) (file_prefix : string)
| SavedModelSave (model : GenVars) (export_dir : string)
| Print (m : message).

(** the module-level globals, the random source and the output so far *)
Record World : Type := mk_world {
  seed : tensor Scalar;
  generator : GenVars;
  discriminator : DiscVars;
  generator_optimizer : GenOpt;
  discriminator_optimizer : DiscOpt;
  rng : Rng;
  out : list event
}.

(** ** The monad: state that survives an exception *)

Definition M (A : Type) : Type := World -> outcome A * World.

Definition ret {A} (a : A) : M A := fun w => (Ok a, w).

Definition bind {A C} (c : M A) (k : A -> M C) : M C :=
  fun w =>
    match c w with
    | (Ok a, w') => k a w'
    | (Raise e, w') => (Raise e, w')
    end.

Definition raise {A} (e : exn) : M A := fun w => (Raise e, w).

Definition lift {A} (o : outcome A) : M A := fun w => (o, w).

Definition gets {A} (f : World -> A) : M A := fun w => (Ok (f w), w).

Definition emit (e : event) : M unit :=
  fun w =>
    (Ok tt, mk_world (seed w) (generator w) (discriminator w)
              (generator_optimizer w) (discriminator_optimizer w) (rng w)
              (out w ++ [e])).

(** [with cm: body], for a context manager whose exit does not swallow
    exceptions *)
Definition finally {A} (c : M A) (h : M unit) : M A :=
  fun w =>
    match c w with
    | (r, w') =>
        match h w' with
        | (Ok _, w'') => (r, w'')
        | (Raise e, w'') => (Raise e, w'')
        end
    end.

Declare Scope monad_scope.
Delimit Scope monad_scope with monad.
Notation "x <- c ;; k" := (bind c (fun x => k))
  (at level 100, c at next level, right associativity) : monad_scope.
Notation "' p <- c ;; k" := (bind c (fun x => match x with p => k end))
  (at level 100, p pattern, c at next level, right associativity) : monad_scope.
Notation "c ;; k" := (bind c (fun _ => k))
  (at level 100, right associativity) : monad_scope.
Local Open Scope monad_scope.

(** ** TensorFlow and library calls *)

(** [t.shape[0]] *)
Definition shape0 (t : tensor Scalar) : M nat :=
  match shape t with
  | [] => raise IndexError
  | b :: _ => ret b
  end.

Fixpoint draws (n : nat) (r : Rng) : list Scalar * Rng :=
  match n with
  | O => ([], r)
  | S n' =>
      let (x, r1) := normal r in
      let (xs, r2) := draws n' r1 in
      (x :: xs, r2)
  end.

(** [tf.random.normal(shape)] as a pure function of the random source *)
Definition sample_normal (sh : list nat) (r : Rng) : tensor Scalar * Rng :=
  let (xs, r') := draws (numel sh) r in (mk_tensor sh xs, r').

(** [tf.random.normal(shape)] on the global random source *)
Definition random_normal (sh : list nat) : M (tensor Scalar) :=
  fun w =>
    let (t, r') := sample_normal sh (rng w) in
    (Ok t, mk_world (seed w) (generator w) (discriminator w)
             (generator_optimizer w) (discriminator_optimizer w) r' (out w)).

(** [generator_optimizer.apply_gradients(zip(grads, generator.trainable_variables))] *)
Definition generator_optimizer_apply (grads : GenGrads) : M unit :=
  fun w =>
    let (o, g) := gen_apply_gradients (generator_optimizer w) grads (generator w) in
    (Ok tt, mk_world (seed w) g (discriminator w) o
              (discriminator_optimizer w) (rng w) (out w)).

(** [discriminator_optimizer.apply_gradients(zip(grads, discriminator.trainable_variables))] *)
Definition discriminator_optimizer_apply (grads : DiscGrads) : M unit :=
  fun w =>
    let (o, d) := disc_apply_gradients (discriminator_optimizer w) grads (discriminator w) in
    (Ok tt, mk_world (seed w) (generator w) d (generator_optimizer w) o
              (rng w) (out w)).

(** the object built at lines 29-32 tracks the four live globals *)
Definition checkpoint (w : World) : Checkpoint :=
  mk_checkpoint (generator_optimizer w) (discriminator_optimizer w)
    (generator w) (discriminator w).

(** [checkpoint.save(file_prefix=..)] *)
Definition checkpoint_save (file_prefix : string) : M unit :=
  ck <- gets checkpoint ;; emit (CheckpointSave ck file_prefix).

(** [tf.saved_model.save(model, export_dir)] *)
Definition saved_model_save (model : GenVars) (export_dir : string) : M unit :=
  emit (SavedModelSave model export_dir).

Definition print (m : message) : M unit := emit (Print m).

(** Modelled from the spec: [generate_and_save_images] is defined in
    [utils.py], which is not among the sources.  The spec describes it as a
    sink taking a model and a fixed noise seed, which produces one grid of
    images and does not affect training state: here it records its three
    arguments in the output and changes nothing else. *)
Definition generate_and_save_images (model : GenVars) (epoch : Z)
    (test_input : tensor Scalar) : M unit :=
  emit (GenerateAndSaveImages model epoch test_input).

(** [a += t] for a scalar tensor [t]: the sum is a tensor whatever [a] was *)
Definition iadd (a : num) (t : Scalar) : num := Tensor (add (num_val a) t).

(** [a / n] for a Python integer [n]: only a Python float raises on zero *)
Definition truediv (a : num) (n : Z) : outcome num :=
  match a with
  | PyFloat x => if n =? 0 then Raise ZeroDivisionError else Ok (PyFloat (div x n))
  | Tensor x => Ok (Tensor (div x n))
  end.

(** reading a local variable of [train] that may not be bound yet *)
Definition load_local (name : string) (v : option Scalar) : M Scalar :=
  match v with
  | Some x => ret x
  | None => raise (UnboundLocalError name)
  end.

(** ** [train_step] (lines 37-57) *)

(** what the two tapes record inside the [with] block, as a function of the
    variables of both networks *)
Record Forward : Type := mk_forward {
  generated_images : tensor Scalar;
  real_output : tensor Scalar;
  fake_output : tensor Scalar;
  gen_loss : Scalar;
  disc_loss : Scalar
}.

Definition forward (images noise : tensor Scalar) (g : GenVars) (d : DiscVars)
  : Forward :=
  let generated_images := call_generator g noise in
  let real_output := call_discriminator d images in
  let fake_output := call_discriminator d generated_images in
  let gen_loss := generator_loss fake_output in
  let disc_loss := discriminator_loss real_output fake_output in
  mk_forward generated_images real_output fake_output gen_loss disc_loss.

Definition train_step (images : tensor Scalar) : M (Scalar * Scalar) :=
  batch_size <- shape0 images ;;
  noise <- random_normal [batch_size; noise_dim] ;;
  g <- gets generator ;;
  d <- gets discriminator ;;
  let fw := forward images noise g d in
  let gradients_of_generator :=
    gen_gradient (fun g' => gen_loss (forward images noise g' d)) g in
  let gradients_of_discriminator :=
    disc_gradient (fun d' => disc_loss (forward images noise g d')) d in
  generator_optimizer_apply gradients_of_generator ;;
  discriminator_optimizer_apply gradients_of_discriminator ;;
  ret (gen_loss fw, disc_loss fw).

(** ** [train] (lines 60-93) *)

(** the locals of [train] that are bound only inside the batch loop; they
    keep their value from one epoch to the next *)
Record Locals : Type := mk_locals {
  local_gen_loss : option Scalar;
  local_disc_loss : option Scalar
}.

Definition no_locals : Locals := mk_locals None None.

(** [range(n)] *)
Definition range (n : Z) : list Z := map Z.of_nat (seq 0 (Z.to_nat n)).

(** lines 70-76: the loop over the batches of one pass *)
Fixpoint batch_loop (batches : list (tensor Scalar)) (l : Locals)
    (gen_loss_sum disc_loss_sum : num) : M (Locals * num * num) :=
  match batches with
  | [] => ret (l, gen_loss_sum, disc_loss_sum)
  | image_batch :: rest =>
      '(gen_loss, disc_loss) <- train_step image_batch ;;
      let gen_loss_sum := iadd gen_loss_sum gen_loss in
      let disc_loss_sum := iadd disc_loss_sum disc_loss in
      emit (PbarUpdate 1) ;;
      batch_loop rest (mk_locals (Some gen_loss) (Some disc_loss))
        gen_loss_sum disc_loss_sum
  end.

(** lines 70-90: the body of the [with tqdm(..) as pbar] block *)
Definition epoch_block (epoch batch_num : Z) (batches : list (tensor Scalar))
    (l : Locals) (gen_loss_sum disc_loss_sum : num) : M Locals :=
  '(l, gen_loss_sum, disc_loss_sum) <-
     batch_loop batches l gen_loss_sum disc_loss_sum ;;
  g <- gets generator ;;
  s <- gets seed ;;
  generate_and_save_images g (epoch + 1) s ;;
  (if (epoch + 1) mod 1 =? 0 then
     checkpoint_save checkpoint_prefix ;;
     print SavingModel ;;
     g <- gets generator ;;
     saved_model_save g "./models/1/"
   else ret tt) ;;
  print (TimeForEpoch (epoch + 1)) ;;
  gen_report <- lift (truediv gen_loss_sum batch_num) ;;
  print (GeneratorLossIs gen_report) ;;
  disc_loss <- load_local "disc_loss" (local_disc_loss l) ;;
  disc_report <- lift (truediv (Tensor disc_loss) batch_num) ;;
  print (DiscriminatorLossIs disc_report) ;;
  ret l.

(** lines 62-90: one iteration of the epoch loop; [time.time()] is left
    out, the elapsed time being the one printed value that is not modelled *)
Definition epoch_body (dataset_size batch_size : Z) (epoch : Z)
    (batches : list (tensor Scalar)) (l : Locals) : M Locals :=
  let gen_loss_sum := PyFloat zero in
  let disc_loss_sum := PyFloat zero in
  batch_num <- lift (batch_num_of dataset_size batch_size) ;;
  emit (PbarOpen batch_num (epoch + 1)) ;;
  finally
    (epoch_block epoch batch_num batches l gen_loss_sum disc_loss_sum)
    (emit PbarClose).

(** a dataset is any iterable: [dataset k] lists the batches it yields the
    [k]-th time it is iterated (counting from 0); [train] iterates it once
    per epoch *)
Definition Dataset : Type := nat -> list (tensor Scalar).

Fixpoint epoch_loop (dataset : Dataset) (dataset_size batch_size : Z)
    (epochs : list Z) (l : Locals) : M Locals :=
  match epochs with
  | [] => ret l
  | epoch :: rest =>
      l' <- epoch_body dataset_size batch_size epoch
              (dataset (Z.to_nat epoch)) l ;;
      epoch_loop dataset dataset_size batch_size rest l'
  end.

Definition train (dataset : Dataset) (epochs dataset_size batch_size : Z)
  : M unit :=
  epoch_loop dataset dataset_size batch_size (range epochs) no_locals ;;
  g <- gets generator ;;
  s <- gets seed ;;
  generate_and_save_images g epochs s.

(** ** Module initialisation (lines 19-25) *)

Definition module_init (r0 : Rng) : World :=
  let (seed, r1) := sample_normal [num_examples_to_generate; noise_dim] r0 in
  let (generator, r2) := make_generator_model r1 in
  let (discriminator, r3) := make_discriminator_model r2 in
  mk_world seed generator discriminator adam_generator adam_discriminator r3 [].

End Training.

Arguments World C : clear implicits.
Arguments M C A : clear implicits.

(** ** Reading a run: events, reports and training state *)

Section Observations.
Context {C : Carriers}.

(** the world with [es] appended to its output *)
Definition add_out (es : list event) (w : World C) : World C :=
  mk_world (seed w) (generator w) (discriminator w)
    (generator_optimizer w) (discriminator_optimizer w) (rng w)
    (out w ++ es).

(** what the optimizers, the models and the random source hold *)
Definition training_state (w : World C)
  : GenVars * DiscVars * GenOpt * DiscOpt * Rng :=
  (generator w, discriminator w, generator_optimizer w,
   discriminator_optimizer w, rng w).

(** the values printed by the "Generator loss is" lines *)
Fixpoint gen_reports (es : list event) : list num :=
  match es with
  | [] => []
  | Print (GeneratorLossIs v) :: es' => v :: gen_reports es'
  | _ :: es' => gen_reports es'
  end.

(** the values printed by the "Discriminator loss is" lines *)
Fixpoint disc_reports (es : list event) : list num :=
  match es with
  | [] => []
  | Print (DiscriminatorLossIs v) :: es' => v :: disc_reports es'
  | _ :: es' => disc_reports es'
  end.

(** the arguments of the calls of [generate_and_save_images] *)
Fixpoint samples (es : list event) : list (GenVars * Z * tensor Scalar) :=
  match es with
  | [] => []
  | GenerateAndSaveImages g e s :: es' => (g, e, s) :: samples es'
  | _ :: es' => samples es'
  end.

(** the arguments of the calls of [checkpoint.save] *)
Fixpoint checkpoints (es : list event) : list (Checkpoint * string) :=
  match es with
  | [] => []
  | CheckpointSave ck p :: es' => (ck, p) :: checkpoints es'
  | _ :: es' => checkpoints es'
  end.

(** the arguments of the calls of [tf.saved_model.save] *)
Fixpoint exports (es : list event) : list (GenVars * string) :=
  match es with
  | [] => []
  | SavedModelSave g p :: es' => (g, p) :: exports es'
  | _ :: es' => exports es'
  end.

(** the number of progress-bar updates, one per train-step of [train] *)
Fixpoint steps (es : list event) : nat :=
  match es with
  | [] => O
  | PbarUpdate _ :: es' => S (steps es')
  | _ :: es' => steps es'
  end.

(** a batch that has a leading dimension *)
Definition ranked (t : tensor Scalar) : Prop := shape t <> [].

End Observations.

Section Replacing.
Context {C : Carriers}.



End Replacing.

(** ** A small concrete backend, to run the loop on

    Scalars are integers, each network has one integer weight, the random
    source is a counter, gradients are forward differences and an optimizer
    counts its steps. *)
Module Toy.

Definition sum (xs : list Z) : Z := fold_right Z.add 0 xs.

#[export] Instance carriers : Carriers := {|
  Scalar := Z; GenVars := Z; DiscVars := Z; GenGrads := Z; DiscGrads := Z;
  GenOpt := nat; DiscOpt := nat; Rng := Z
|}.

#[export] Instance backend : Backend carriers := {|
  zero := 0;
  add := Z.add;
  div := Z.div;
  normal := fun r => (r mod 3 - 1, r + 1);
  make_generator_model := fun r => (2, r);
  make_discriminator_model := fun r => (3, r);
  adam_generator := O;
  adam_discriminator := O;
  call_generator := fun g t => mk_tensor (shape t) (map (Z.mul g) (data t));
  call_discriminator := fun d t =>
    mk_tensor [hd O (shape t); 1%nat] [d * sum (data t)];
  generator_loss := fun f => sum (data f);
  discriminator_loss := fun r f => sum (data r) - sum (data f);
  gen_gradient := fun f g => f (g + 1) - f g;
  disc_gradient := fun f d => f (d + 1) - f d;
  gen_apply_gradients := fun o gr g => (S o, g - gr);
  disc_apply_gradients := fun o gr d => (S o, d - gr)
|}.

(** a batch of [b] images of one pixel each, all of value [v] *)
Definition batch (b : nat) (v : Z) : tensor Z :=
  mk_tensor [b; 1%nat; 1%nat; 1%nat] (repeat v b).

Definition world0 : World carriers := module_init 0.

(** 8 images in batches of 4, the same at every pass *)
Definition dataset8 : Dataset := fun _ => [batch 4 1; batch 4 2].


(** a dataset without batches *)
Definition empty_dataset : Dataset := fun _ => [].

(** an iterator that is exhausted after its first pass *)
Definition one_shot : Dataset :=
  fun k => match k with O => [batch 4 1] | S _ => [] end.

End Toy.

(** ** Derived notions used in the statements *)

Section Derived.
Context {C : Carriers} {B : Backend C}.

(** the pair of losses returned by [train_step] on each batch in turn, as
    the batch loop of [train] calls it *)
Fixpoint batch_losses (batches : list (tensor Scalar)) (w : World C)
  : list (Scalar * Scalar) :=
  match batches with
  | [] => []
  | image_batch :: rest =>
      match train_step image_batch w with
      | (Ok p, w') => p :: batch_losses rest (add_out [PbarUpdate 1] w')
      | (Raise _, _) => []
      end
  end.


(** the output of an epoch after the batch loop and before the reports *)
Definition epoch_events (epoch : Z) (w1 : World C) : list event :=
  [GenerateAndSaveImages (generator w1) (epoch + 1) (seed w1);
   CheckpointSave (checkpoint w1) checkpoint_prefix;
   Print SavingModel;
   SavedModelSave (generator w1) "./models/1/";
   Print (TimeForEpoch (epoch + 1))].

End Derived.

(** ** Further notions: folds, balance and what training depends on *)

Section Further.
Context {C : Carriers} {B : Backend C}.

(** the world after [train_step] on each batch in turn, stopping at the
    first one that raises *)
Fixpoint train_steps (batches : list (tensor Scalar)) (w : World C) : World C :=
  match batches with
  | [] => w
  | image_batch :: rest =>
      match train_step image_batch w with
      | (Ok _, w') => train_steps rest w'
      | (Raise _, w') => w'
      end
  end.

(** how many progress bars the output opens *)
Fixpoint pbar_opens (es : list (@event C)) : nat :=
  match es with
  | [] => O
  | PbarOpen _ _ :: es' => S (pbar_opens es')
  | _ :: es' => pbar_opens es'
  end.

(** how many progress bars the output closes *)
Fixpoint pbar_closes (es : list (@event C)) : nat :=
  match es with
  | [] => O
  | PbarClose :: es' => S (pbar_closes es')
  | _ :: es' => pbar_closes es'
  end.

(** two worlds that agree on everything training reads and writes: they may
    differ in the seed and in the output so far *)
Definition same_training (w1 w2 : World C) : Prop :=
  training_state w1 = training_state w2.

(** an output in which every progress bar opened is closed, every
    checkpoint has its export and every sampling call its checkpoint *)
Definition balanced (es : list (@event C)) : Prop :=
  pbar_opens es = pbar_closes es /\
  List.length (checkpoints es) = List.length (exports es) /\
  List.length (samples es) = List.length (checkpoints es).

(** the world with another seed *)
Definition with_seed (s : tensor Scalar) (w : World C) : World C :=
  mk_world s (generator w) (discriminator w)
    (generator_optimizer w) (discriminator_optimizer w) (rng w) (out w).

End Further.

(** * Facts *)

(** ** The batch count *)

Example batch_num_100_32 : batch_num_of 100 32 = Ok 4.
Proof. vm_compute. reflexivity. Qed.

Example batch_num_8_4 : batch_num_of 8 4 = Ok 2.
Proof. vm_compute. reflexivity. Qed.

Example batch_num_0_32 : batch_num_of 0 32 = Ok 0.
Proof. vm_compute. reflexivity. Qed.

Example batch_num_1_0 : batch_num_of 1 0 = Raise ZeroDivisionError.
Proof. vm_compute. reflexivity. Qed.

(** beyond 53 bits the quotient is rounded before the ceiling is taken *)
Example batch_num_big : batch_num_of (2 ^ 53 + 1) 1 = Ok (2 ^ 53).
Proof. vm_compute. reflexivity. Qed.

Example batch_num_huge : batch_num_of (2 ^ 1024) 1 = Raise OverflowError.
Proof. vm_compute. reflexivity. Qed.

Lemma round_half_even_le n d c :
  0 < d -> n <= c * d -> Float64.round_half_even n d <= c.
Proof.
  intros Hd Hn. unfold Float64.round_half_even.
  pose proof (Z.div_mod n d ltac:(lia)) as E.
  pose proof (Z.mod_pos_bound n d Hd) as R.
  destruct (2 * (n mod d) <? d) eqn:T1; [apply Z.ltb_lt in T1; nia|].
  apply Z.ltb_ge in T1.
  destruct (d <? 2 * (n mod d)) eqn:T2; [nia|].
  destruct (Z.even (n / d)); nia.
Qed.

Lemma round_half_even_ge n d c :
  0 < d -> (2 * c - 1) * d < 2 * n -> c <= Float64.round_half_even n d.
Proof.
  intros Hd Hn. unfold Float64.round_half_even.
  pose proof (Z.div_mod n d ltac:(lia)) as E.
  pose proof (Z.mod_pos_bound n d Hd) as R.
  destruct (2 * (n mod d) <? d) eqn:T1; [apply Z.ltb_lt in T1; nia|].
  apply Z.ltb_ge in T1.
  destruct (d <? 2 * (n mod d)) eqn:T2; [nia|].
  apply Z.ltb_ge in T2.
  destruct (Z.even (n / d)); nia.
Qed.

Lemma ceil_quot_bounds a b :
  0 < b -> (ceil_quot a b - 1) * b < a <= ceil_quot a b * b.
Proof.
  intros Hb. unfold ceil_quot.
  pose proof (Z.div_mod (- a) b ltac:(lia)) as E.
  pose proof (Z.mod_pos_bound (- a) b Hb) as R.
  nia.
Qed.

Lemma ceil_quot_unique a b c :
  0 < b -> (c - 1) * b < a <= c * b -> ceil_quot a b = c.
Proof.
  intros Hb H. pose proof (ceil_quot_bounds a b Hb). nia.
Qed.

Lemma quot_log2_bounds a b :
  0 < a < 2 ^ 53 -> 0 < b < 2 ^ 53 ->
  let k := Float64.quot_log2 a b in
  -53 <= k <= 52 /\ b * 2 ^ Z.max 0 k <= a * 2 ^ Z.max 0 (- k).
Proof.
  intros Ha Hb. unfold Float64.quot_log2.
  pose proof (Z.log2_spec a ltac:(lia)) as La.
  pose proof (Z.log2_spec b ltac:(lia)) as Lb.
  pose proof (Z.log2_nonneg a) as Na.
  pose proof (Z.log2_nonneg b) as Nb.
  assert (Z.log2 a < 53) as Ua by (apply Z.log2_lt_pow2; lia).
  assert (Z.log2 b < 53) as Ub by (apply Z.log2_lt_pow2; lia).
  set (la := Z.log2 a) in *. set (lb := Z.log2 b) in *.
  destruct (b * 2 ^ Z.max 0 (la - lb) <=? a * 2 ^ Z.max 0 (- (la - lb))) eqn:T.
  - apply Z.leb_le in T. split; [lia | exact T].
  - clear T. split; [lia|].
    rewrite Z.pow_succ_r in La, Lb by lia.
    destruct (Z.le_gt_cases 0 (la - lb - 1)) as [G|G].
    + rewrite (Z.max_r 0 (la - lb - 1)) by lia.
      rewrite (Z.max_l 0 (- (la - lb - 1))) by lia.
      replace la with (lb + 1 + (la - lb - 1)) in La at 1 by lia.
      rewrite Z.pow_add_r in La by lia.
      rewrite Z.pow_add_r in La by lia.
      assert (0 < 2 ^ (la - lb - 1)) by (apply Z.pow_pos_nonneg; lia).
      nia.
    + rewrite (Z.max_l 0 (la - lb - 1)) by lia.
      rewrite (Z.max_r 0 (- (la - lb - 1))) by lia.
      assert (2 ^ (lb + 1) = 2 ^ la * 2 ^ (- (la - lb - 1))) as E.
      { rewrite <- Z.pow_add_r by lia. f_equal. lia. }
      rewrite Z.pow_add_r in E by lia.
      assert (0 < 2 ^ (- (la - lb - 1))) by (apply Z.pow_pos_nonneg; lia).
      assert (0 < 2 ^ la) by (apply Z.pow_pos_nonneg; lia).
      nia.
Qed.

Lemma batch_num_exact a b :
  0 < a < 2 ^ 53 -> 0 < b < 2 ^ 53 ->
  batch_num_of a b = Ok (ceil_quot a b).
Proof.
  intros Ha Hb.
  destruct (quot_log2_bounds a b Ha Hb) as [Kb Kle].
  unfold batch_num_of, Float64.true_div.
  destruct (Z.eqb_spec b 0) as [|_]; [lia|].
  destruct (Z.eqb_spec a 0) as [|_]; [lia|].
  rewrite (Z.abs_eq a), (Z.abs_eq b) by lia.
  rewrite (Z.sgn_pos a), (Z.sgn_pos b) by lia.
  set (k := Float64.quot_log2 a b) in *.
  rewrite (Z.max_l (k - 52) (-1074)) by lia.
  replace (Z.max 0 (- (k - 52))) with (52 - k) by lia.
  assert (2 ^ Z.max 0 (k - 52) = 1) as ->.
  { rewrite Z.max_l by lia. reflexivity. }
  rewrite Z.mul_1_r.
  set (P := 2 ^ (52 - k)).
  assert (0 < P) as HP by (apply Z.pow_pos_nonneg; lia).
  pose proof (ceil_quot_bounds a b ltac:(lia)) as Hc.
  set (c := ceil_quot a b) in *.
  (* the divisor stays below two units of the last place *)
  assert (b < 2 * P) as HbP.
  { destruct (Z.le_gt_cases 0 k) as [G|G].
    - rewrite (Z.max_r 0 k), (Z.max_l 0 (- k)) in Kle by lia.
      change (2 ^ 0) with 1 in Kle.
      assert (0 < 2 ^ k) by (apply Z.pow_pos_nonneg; lia).
      assert (2 ^ 53 = 2 ^ k * (2 * P)) as E.
      { unfold P. rewrite <- Z.pow_succ_r, <- Z.pow_add_r by lia.
        f_equal. lia. }
      nia.
    - rewrite (Z.max_l 0 k), (Z.max_r 0 (- k)) in Kle by lia.
      change (2 ^ 0) with 1 in Kle.
      assert (0 < 2 ^ (- k)) by (apply Z.pow_pos_nonneg; lia).
      assert (2 * P = 2 ^ 53 * 2 ^ (- k)) as E.
      { unfold P. rewrite <- Z.pow_succ_r, <- Z.pow_add_r by lia.
        f_equal. lia. }
      nia. }
  set (m := Float64.round_half_even (a * P) b).
  assert (m <= c * P) as Hm1.
  { apply round_half_even_le; [lia | nia]. }
  assert ((c - 1) * P + 1 <= m) as Hm2.
  { apply round_half_even_ge; [lia | nia]. }
  assert (0 < c) as Hc0 by nia.
  assert (Z.log2 m + (k - 52) < 1024) as Hov.
  { assert (Z.log2 m < 53 + (52 - k)); [|lia].
    apply Z.log2_lt_pow2; [nia|].
    rewrite Z.pow_add_r by lia. fold P. nia. }
  destruct (Z.leb_spec 1024 (Z.log2 m + (k - 52))) as [|_]; [lia|].
  unfold Float64.ceil, Float64.to_int. cbn [Float64.exp Float64.man].
  rewrite !Z.mul_1_l.
  destruct (Z.leb_spec 0 (k - 52)) as [G|G].
  - cbn [Float64.exp Float64.man].
    destruct (Z.leb_spec 0 (k - 52)) as [_|]; [|lia].
    assert (k = 52) as Ek by lia.
    assert (P = 1) as EP by (unfold P; rewrite Ek; reflexivity).
    rewrite Ek. change (2 ^ (52 - 52)) with 1. f_equal. nia.
  - cbn [Float64.exp Float64.man]. change (0 <=? 0) with true. cbv iota.
    change (2 ^ 0) with 1. rewrite Z.mul_1_r.
    replace (- (k - 52)) with (52 - k) by lia. fold P.
    f_equal. change (ceil_quot m P = c).
    apply ceil_quot_unique; lia.
Qed.

(** ** Reading the output of a run *)

Section Traces.
Context {C : Carriers}.

Lemma samples_app (xs ys : list (@event C)) :
  samples (xs ++ ys) = samples xs ++ samples ys.
Proof.
  induction xs as [|x xs IH]; [reflexivity|].
  destruct x; cbn; rewrite ?IH; reflexivity.
Qed.

Lemma checkpoints_app (xs ys : list (@event C)) :
  checkpoints (xs ++ ys) = checkpoints xs ++ checkpoints ys.
Proof.
  induction xs as [|x xs IH]; [reflexivity|].
  destruct x; cbn; rewrite ?IH; reflexivity.
Qed.

Lemma exports_app (xs ys : list (@event C)) :
  exports (xs ++ ys) = exports xs ++ exports ys.
Proof.
  induction xs as [|x xs IH]; [reflexivity|].
  destruct x; cbn; rewrite ?IH; reflexivity.
Qed.

Lemma steps_app (xs ys : list (@event C)) :
  steps (xs ++ ys) = (steps xs + steps ys)%nat.
Proof.
  induction xs as [|x xs IH]; [reflexivity|].
  destruct x; cbn; rewrite ?IH; reflexivity.
Qed.

Lemma gen_reports_app (xs ys : list (@event C)) :
  gen_reports (xs ++ ys) = gen_reports xs ++ gen_reports ys.
Proof.
  induction xs as [|x xs IH]; [reflexivity|].
  destruct x as [| | | | | |m]; cbn; rewrite ?IH; try reflexivity.
  destruct m; cbn; rewrite ?IH; reflexivity.
Qed.

Lemma disc_reports_app (xs ys : list (@event C)) :
  disc_reports (xs ++ ys) = disc_reports xs ++ disc_reports ys.
Proof.
  induction xs as [|x xs IH]; [reflexivity|].
  destruct x as [| | | | | |m]; cbn; rewrite ?IH; try reflexivity.
  destruct m; cbn; rewrite ?IH; reflexivity.
Qed.

Lemma updates_only (k : nat) :
  samples (repeat (@PbarUpdate C 1) k) = [] /\
  checkpoints (repeat (@PbarUpdate C 1) k) = [] /\
  exports (repeat (@PbarUpdate C 1) k) = [] /\
  gen_reports (repeat (@PbarUpdate C 1) k) = [] /\
  disc_reports (repeat (@PbarUpdate C 1) k) = [] /\
  steps (repeat (@PbarUpdate C 1) k) = k.
Proof.
  induction k as [|k IH]; cbn; [tauto|].
  destruct IH as (? & ? & ? & ? & ? & ->). tauto.
Qed.

End Traces.

Create Rewrite HintDb trace.
#[export] Hint Rewrite @samples_app @checkpoints_app @exports_app @steps_app
  @gen_reports_app @disc_reports_app : trace.

(** every batch of a literal list has a leading dimension *)
Ltac ranked_batches := repeat constructor; discriminate.

(** the three ways the reports of an epoch can go *)
Ltac report_cases gs n l :=
  destruct (truediv gs n) as [?gr|?e];
  [destruct (local_disc_loss l) as [?d|]|].

(** ** The train-step and one epoch *)

Section Facts.
Context {C : Carriers} {B : Backend C}.

Lemma emit_add_out (e : event) (w : World C) : emit e w = (Ok tt, add_out [e] w).
Proof. reflexivity. Qed.

Lemma add_out_add_out (es1 es2 : list event) (w : World C) :
  add_out es2 (add_out es1 w) = add_out (es1 ++ es2) w.
Proof. unfold add_out; cbn. now rewrite app_assoc. Qed.

Lemma train_step_run (images : tensor Scalar) b sh (w : World C) :
  shape images = b :: sh ->
  let noise := fst (sample_normal [b; noise_dim] (rng w)) in
  let g := generator w in
  let d := discriminator w in
  let fw := forward images noise g d in
  let go := gen_apply_gradients (generator_optimizer w)
              (gen_gradient (fun g' => gen_loss (forward images noise g' d)) g) g in
  let do := disc_apply_gradients (discriminator_optimizer w)
              (disc_gradient (fun d' => disc_loss (forward images noise g d')) d) d in
  train_step images w =
    (Ok (gen_loss fw, disc_loss fw),
     mk_world (seed w) (snd go) (snd do) (fst go) (fst do)
       (snd (sample_normal [b; noise_dim] (rng w))) (out w)).
Proof.
  intros E. cbv zeta.
  unfold train_step, bind, shape0. rewrite E. unfold ret at 1.
  unfold random_normal.
  destruct (sample_normal [b; noise_dim] (rng w)) as [noise r'].
  cbn [fst snd gets generator discriminator].
  unfold generator_optimizer_apply. cbn [generator generator_optimizer].
  destruct (gen_apply_gradients _ _ _) as [o g'].
  unfold discriminator_optimizer_apply.
  cbn [discriminator discriminator_optimizer seed generator rng out generator_optimizer].
  destruct (disc_apply_gradients _ _ _) as [o' d'].
  reflexivity.
Qed.

Lemma train_step_unranked (images : tensor Scalar) (w : World C) :
  shape images = [] -> train_step images w = (Raise IndexError, w).
Proof.
  intros E. unfold train_step, bind, shape0. rewrite E. reflexivity.
Qed.


Lemma train_step_ok (images : tensor Scalar) (w : World C) :
  ranked images ->
  exists g d w', train_step images w = (Ok (g, d), w') /\
                 seed w' = seed w /\ out w' = out w.
Proof.
  intros R. unfold ranked in R.
  destruct (shape images) as [|b sh] eqn:E; [congruence|].
  rewrite (train_step_run images b sh w E).
  do 3 eexists. split; [reflexivity|]. split; reflexivity.
Qed.

Lemma train_step_keeps (images : tensor Scalar) (w : World C) :
  seed (snd (train_step images w)) = seed w /\
  out (snd (train_step images w)) = out w.
Proof.
  destruct (shape images) as [|b sh] eqn:E.
  - rewrite train_step_unranked by assumption. split; reflexivity.
  - rewrite (train_step_run images b sh w E). split; reflexivity.
Qed.

Lemma batch_loop_app (xs ys : list (tensor Scalar)) l gs ds (w : World C) :
  batch_loop (xs ++ ys) l gs ds w =
  match batch_loop xs l gs ds w with
  | (Ok (l1, gs1, ds1), w1) => batch_loop ys l1 gs1 ds1 w1
  | (Raise e, w1) => (Raise e, w1)
  end.
Proof.
  revert l gs ds w. induction xs as [|x xs IH]; intros l gs ds w.
  - reflexivity.
  - cbn [app batch_loop]. unfold bind.
    destruct (train_step x w) as [[[g d]|e] w1]; [|reflexivity].
    rewrite emit_add_out. apply IH.
Qed.

Lemma batch_loop_cons (x : tensor Scalar) xs l gs ds (w : World C) :
  batch_loop (x :: xs) l gs ds w =
  match train_step x w with
  | (Ok (g, d), w1) =>
      batch_loop xs (mk_locals (Some g) (Some d)) (iadd gs g) (iadd ds d)
        (add_out [PbarUpdate 1] w1)
  | (Raise e, w1) => (Raise e, w1)
  end.
Proof.
  cbn [batch_loop]. unfold bind.
  destruct (train_step x w) as [[[g d]|e] w1]; reflexivity.
Qed.

Lemma batch_loop_run (batches : list (tensor Scalar)) l gs ds (w : World C) :
  Forall ranked batches ->
  exists l' w',
    batch_loop batches l gs ds w =
      (Ok (l', fold_left iadd (map fst (batch_losses batches w)) gs,
               fold_left iadd (map snd (batch_losses batches w)) ds), w') /\
    seed w' = seed w /\
    out w' = out w ++ repeat (PbarUpdate 1) (List.length batches) /\
    List.length (batch_losses batches w) = List.length batches /\
    (batches = [] -> l' = l /\ w' = w) /\
    (batches <> [] -> exists g d, l' = mk_locals (Some g) (Some d)).
Proof.
  intros F. revert l gs ds w.
  induction F as [|x xs Rx F IH]; intros l gs ds w.
  - exists l, w. cbn. rewrite app_nil_r.
    repeat split; try reflexivity. congruence.
  - destruct (train_step_ok x w Rx) as (g & d & w1 & E1 & S1 & O1).
    cbn [batch_loop batch_losses]. unfold bind at 1. rewrite E1.
    unfold bind at 1. rewrite emit_add_out.
    destruct (IH (mk_locals (Some g) (Some d)) (iadd gs g) (iadd ds d)
                 (add_out [PbarUpdate 1] w1))
      as (l' & w' & E & S' & O' & L' & N' & C').
    exists l', w'. cbn [map fold_left fst snd List.length].
    split; [exact E|].
    split; [rewrite S'; exact S1|].
    split.
    { rewrite O'. cbn [add_out out repeat]. rewrite O1, <- app_assoc.
      reflexivity. }
    split; [now rewrite L'|].
    split; [discriminate|].
    intros _. destruct xs as [|y ys].
    + destruct (N' eq_refl) as [-> _]. eauto.
    + apply C'. discriminate.
Qed.

Lemma add_out_generator (es : list event) (w : World C) :
  generator (add_out es w) = generator w.
Proof. reflexivity. Qed.

Lemma add_out_checkpoint (es : list event) (w : World C) :
  checkpoint (add_out es w) = checkpoint w.
Proof. reflexivity. Qed.

Lemma bind_emit {A} (e : event) (k : unit -> M C A) (w : World C) :
  bind (emit e) k w = k tt (add_out [e] w).
Proof. reflexivity. Qed.

Lemma bind_gets {A X} (f : World C -> X) (k : X -> M C A) (w : World C) :
  bind (gets f) k w = k (f w) w.
Proof. reflexivity. Qed.

Lemma bind_bind {A X Y} (c : M C X) (k : X -> M C Y) (h : Y -> M C A) (w : World C) :
  bind (bind c k) h w = bind c (fun x => bind (k x) h) w.
Proof. unfold bind. destruct (c w) as [[x|e] w1]; reflexivity. Qed.

Lemma bind_lift {A X} (o : outcome X) (k : X -> M C A) (w : World C) :
  bind (lift o) k w =
  match o with Ok x => k x w | Raise e => (Raise e, w) end.
Proof. destruct o; reflexivity. Qed.

Lemma bind_load_local {A} name v (k : Scalar -> M C A) (w : World C) :
  bind (load_local name v) k w =
  match v with Some x => k x w | None => (Raise (UnboundLocalError name), w) end.
Proof. destruct v; reflexivity. Qed.

Lemma epoch_block_run epoch n batches l gs0 ds0 (w : World C) l1 gs ds w1 :
  batch_loop batches l gs0 ds0 w = (Ok (l1, gs, ds), w1) ->
  epoch_block epoch n batches l gs0 ds0 w =
  match truediv gs n with
  | Raise e => (Raise e, add_out (epoch_events epoch w1) w1)
  | Ok gr =>
      match local_disc_loss l1 with
      | None =>
          (Raise (UnboundLocalError "disc_loss"),
           add_out (epoch_events epoch w1 ++ [Print (GeneratorLossIs gr)]) w1)
      | Some d =>
          (Ok l1,
           add_out (epoch_events epoch w1 ++
                    [Print (GeneratorLossIs gr);
                     Print (DiscriminatorLossIs (Tensor (div d n)))]) w1)
      end
  end.
Proof.
  intros Hb. unfold epoch_block.
  unfold bind at 1. rewrite Hb.
  rewrite bind_gets, bind_gets.
  unfold generate_and_save_images. rewrite bind_emit.
  rewrite Z.mod_1_r. change (0 =? 0) with true. cbv iota.
  unfold checkpoint_save, print, saved_model_save.
  repeat first [rewrite bind_bind | rewrite bind_gets | rewrite bind_emit].
  rewrite !add_out_add_out, !add_out_checkpoint, !add_out_generator.
  cbn [app].
  fold (epoch_events epoch w1).
  rewrite bind_lift. destruct (truediv gs n) as [gr|e]; [|reflexivity].
  rewrite bind_emit, add_out_add_out, bind_load_local.
  destruct (local_disc_loss l1) as [d|]; [|reflexivity].
  rewrite bind_lift. cbn [truediv].
  rewrite bind_emit, add_out_add_out, <- app_assoc. reflexivity.
Qed.

Lemma epoch_body_run dataset_size batch_size epoch batches l (w : World C)
    n l1 gs ds w1 :
  batch_num_of dataset_size batch_size = Ok n ->
  batch_loop batches l (PyFloat zero) (PyFloat zero)
    (add_out [PbarOpen n (epoch + 1)] w) = (Ok (l1, gs, ds), w1) ->
  epoch_body dataset_size batch_size epoch batches l w =
  match truediv gs n with
  | Raise e => (Raise e, add_out (epoch_events epoch w1 ++ [PbarClose]) w1)
  | Ok gr =>
      match local_disc_loss l1 with
      | None =>
          (Raise (UnboundLocalError "disc_loss"),
           add_out (epoch_events epoch w1 ++
                    [Print (GeneratorLossIs gr); PbarClose]) w1)
      | Some d =>
          (Ok l1,
           add_out (epoch_events epoch w1 ++
                    [Print (GeneratorLossIs gr);
                     Print (DiscriminatorLossIs (Tensor (div d n)));
                     PbarClose]) w1)
      end
  end.
Proof.
  intros Hn Hb. unfold epoch_body.
  rewrite bind_lift, Hn, bind_emit. unfold finally.
  rewrite (epoch_block_run _ _ _ _ _ _ _ _ _ _ _ Hb).
  destruct (truediv gs n) as [gr|e].
  - destruct (local_disc_loss l1) as [d|];
      rewrite emit_add_out, add_out_add_out, <- app_assoc; reflexivity.
  - rewrite emit_add_out, add_out_add_out. reflexivity.
Qed.

Lemma epoch_body_no_count dataset_size batch_size epoch batches l (w : World C) e :
  batch_num_of dataset_size batch_size = Raise e ->
  epoch_body dataset_size batch_size epoch batches l w = (Raise e, w).
Proof.
  intros Hn. unfold epoch_body. rewrite bind_lift, Hn. reflexivity.
Qed.

Lemma epoch_body_step_fails dataset_size batch_size epoch batches l (w : World C)
    n e w1 :
  batch_num_of dataset_size batch_size = Ok n ->
  batch_loop batches l (PyFloat zero) (PyFloat zero)
    (add_out [PbarOpen n (epoch + 1)] w) = (Raise e, w1) ->
  epoch_body dataset_size batch_size epoch batches l w =
    (Raise e, add_out [PbarClose] w1).
Proof.
  intros Hn Hb. unfold epoch_body.
  rewrite bind_lift, Hn, bind_emit. unfold finally, epoch_block.
  unfold bind at 1. rewrite Hb. rewrite emit_add_out. reflexivity.
Qed.


Lemma batch_loop_last (init : list (tensor Scalar)) last l gs ds (w : World C)
    l1 gs1 ds1 w1 g d w2 :
  batch_loop init l gs ds w = (Ok (l1, gs1, ds1), w1) ->
  train_step last w1 = (Ok (g, d), w2) ->
  batch_loop (init ++ [last]) l gs ds w =
    (Ok (mk_locals (Some g) (Some d), iadd gs1 g, iadd ds1 d),
     add_out [PbarUpdate 1] w2).
Proof.
  intros E1 E2. rewrite batch_loop_app, E1. cbn [batch_loop].
  unfold bind. rewrite E2, emit_add_out. reflexivity.
Qed.

(** C1.  In an epoch whose batches are [init ++ [last]], all with a leading
    dimension, the batch loop accumulates both running sums, the epoch
    completes, and the one "Discriminator loss is" line it prints shows the
    discriminator loss that [train_step] returned for [last], divided by the
    batch count [n]: the accumulated [disc_loss_sum] is not what is divided.
    For sizes below [2 ^ 53], [n] is the ceiling of the exact quotient. *)
Theorem disc_report_is_last_batch_loss
    dataset_size batch_size epoch init last l (w : World C) n :
  batch_num_of dataset_size batch_size = Ok n ->
  Forall ranked (init ++ [last]) ->
  exists l1 gs1 ds1 w1 g d w2 wf,
    batch_loop init l (PyFloat zero) (PyFloat zero)
      (add_out [PbarOpen n (epoch + 1)] w) = (Ok (l1, gs1, ds1), w1) /\
    train_step last w1 = (Ok (g, d), w2) /\
    batch_loop (init ++ [last]) l (PyFloat zero) (PyFloat zero)
      (add_out [PbarOpen n (epoch + 1)] w) =
      (Ok (mk_locals (Some g) (Some d), iadd gs1 g, iadd ds1 d),
       add_out [PbarUpdate 1] w2) /\
    epoch_body dataset_size batch_size epoch (init ++ [last]) l w =
      (Ok (mk_locals (Some g) (Some d)), wf) /\
    disc_reports (out wf) = disc_reports (out w) ++ [Tensor (div d n)] /\
    (0 < dataset_size < 2 ^ 53 -> 0 < batch_size < 2 ^ 53 ->
     n = ceil_quot dataset_size batch_size).
Proof.
  intros Hn F. apply Forall_app in F. destruct F as [Fi Fl].
  destruct (batch_loop_run init l (PyFloat zero) (PyFloat zero)
              (add_out [PbarOpen n (epoch + 1)] w) Fi)
    as (l1 & w1 & E1 & S1 & O1 & _).
  destruct (train_step_ok last w1 (Forall_inv Fl)) as (g & d & w2 & E2 & S2 & O2).
  pose proof (batch_loop_last _ _ _ _ _ _ _ _ _ _ _ _ _ E1 E2) as E3.
  do 7 eexists. eexists.
  split; [exact E1|]. split; [exact E2|]. split; [exact E3|].
  rewrite (epoch_body_run _ _ _ _ _ _ _ _ _ _ _ Hn E3).
  cbn [iadd truediv local_disc_loss]. split; [reflexivity|].
  cbn [add_out out]. rewrite O2, O1. cbn [add_out out].
  rewrite !disc_reports_app. cbn [disc_reports].
  destruct (updates_only (List.length init)) as (_ & _ & _ & _ & -> & _).
  cbn. rewrite !app_nil_r. split; [reflexivity|].
  intros Hd Hb. pose proof (batch_num_exact _ _ Hd Hb) as E. congruence.
Qed.


Lemma fold_iadd_tensor (xs : list Scalar) (y : Scalar) :
  exists z, fold_left iadd xs (Tensor y) = Tensor z.
Proof.
  revert y. induction xs as [|x xs IH]; intros y; cbn; eauto.
Qed.

Lemma fold_iadd_nonempty (xs : list Scalar) (a : num) :
  xs <> [] -> exists z, fold_left iadd xs a = Tensor z.
Proof.
  destruct xs as [|x xs]; [congruence|]. intros _. cbn.
  apply fold_iadd_tensor.
Qed.







(** C5.  A train-step returns the generator loss of the discriminator's
    output on the generated images and the discriminator loss of its outputs
    on the real and on the generated images, all computed with the variables
    held before the step; both updates differentiate these same recorded
    losses at those variables, the discriminator's with the images generated
    before the generator's update.  The generator loss and the generator's
    update are the same for any other real batch of the same size. *)
Theorem losses_from_one_forward_pass
    (images : tensor Scalar) b sh (w : World C) :
  shape images = b :: sh ->
  let noise := fst (sample_normal [b; noise_dim] (rng w)) in
  let g := generator w in
  let d := discriminator w in
  let real_output := call_discriminator d images in
  let fake_output := call_discriminator d (call_generator g noise) in
  exists w',
    train_step images w =
      (Ok (generator_loss fake_output,
           discriminator_loss real_output fake_output), w') /\
    generator w' =
      snd (gen_apply_gradients (generator_optimizer w)
             (gen_gradient
                (fun g' => generator_loss
                             (call_discriminator d (call_generator g' noise)))
                g) g) /\
    discriminator w' =
      snd (disc_apply_gradients (discriminator_optimizer w)
             (disc_gradient
                (fun d' => discriminator_loss
                             (call_discriminator d' images)
                             (call_discriminator d' (call_generator g noise)))
                d) d) /\
    forall images2 sh2,
      shape images2 = b :: sh2 ->
      exists disc_loss2 w2,
        train_step images2 w = (Ok (generator_loss fake_output, disc_loss2), w2) /\
        generator w2 = generator w'.
Proof.
  intros E. cbv zeta. eexists.
  split; [apply (train_step_run images b sh w E)|].
  cbn [generator discriminator].
  split; [reflexivity|]. split; [reflexivity|].
  intros images2 sh2 E2. do 2 eexists.
  split; [apply (train_step_run images2 b sh2 w E2)|].
  reflexivity.
Qed.

End Facts.


Section Runs.
Context {C : Carriers} {B : Backend C}.

Lemma range_nonpos (n : Z) : n <= 0 -> range n = [].
Proof.
  intros H. unfold range. replace (Z.to_nat n) with O by lia. reflexivity.
Qed.

Lemma range_pos (n : Z) : 1 <= n -> exists rest, range n = 0 :: rest.
Proof.
  intros H. unfold range.
  destruct (Z.to_nat n) as [|k] eqn:E; [lia|].
  cbn. eauto.
Qed.

Lemma range_length (n : Z) : List.length (range n) = Z.to_nat n.
Proof. unfold range. now rewrite length_map, length_seq. Qed.

Lemma range_in (n e : Z) : In e (range n) -> 0 <= e /\ (Z.to_nat e < Z.to_nat n)%nat.
Proof.
  unfold range. intros H. apply in_map_iff in H.
  destruct H as (k & <- & Hk). apply in_seq in Hk. lia.
Qed.

(** a complete epoch: at least one batch, every batch with a leading
    dimension *)
Lemma epoch_body_ok dataset_size batch_size epoch batches l (w : World C) n :
  batch_num_of dataset_size batch_size = Ok n ->
  batches <> [] ->
  Forall ranked batches ->
  exists g d w1 gr dr,
    epoch_body dataset_size batch_size epoch batches l w =
      (Ok (mk_locals (Some g) (Some d)),
       add_out (epoch_events epoch w1 ++
                [Print (GeneratorLossIs gr); Print (DiscriminatorLossIs dr);
                 PbarClose]) w1) /\
    seed w1 = seed w /\
    out w1 = out w ++ PbarOpen n (epoch + 1)
                   :: repeat (PbarUpdate 1) (List.length batches).
Proof.
  intros Hn Hne F.
  destruct (batch_loop_run batches l (PyFloat zero) (PyFloat zero)
              (add_out [PbarOpen n (epoch + 1)] w) F)
    as (l1 & w1 & E1 & S1 & O1 & L1 & _ & N1).
  destruct (N1 Hne) as (g & d & ->).
  rewrite (epoch_body_run _ _ _ _ _ _ _ _ _ _ _ Hn E1).
  destruct (fold_iadd_nonempty
              (map fst (batch_losses batches (add_out [PbarOpen n (epoch + 1)] w)))
              (PyFloat zero)) as [z Ez].
  { intros Em. apply (f_equal (@List.length _)) in Em.
    rewrite length_map, L1 in Em. destruct batches; [congruence|discriminate]. }
  rewrite Ez. cbn [truediv local_disc_loss].
  exists g, d, w1. do 2 eexists. split; [reflexivity|].
  split; [exact S1|]. rewrite O1. cbn [add_out out].
  rewrite <- app_assoc. reflexivity.
Qed.


Lemma epoch_events_obs epoch (w1 : World C) :
  samples (epoch_events epoch w1) = [(generator w1, epoch + 1, seed w1)] /\
  checkpoints (epoch_events epoch w1) = [(checkpoint w1, checkpoint_prefix)] /\
  exports (epoch_events epoch w1) = [(generator w1, "./models/1/"%string)] /\
  steps (epoch_events epoch w1) = O.
Proof. repeat split. Qed.

Lemma batch_loop_ok_out (batches : list (tensor Scalar)) l gs ds (w : World C)
    r w1 :
  batch_loop batches l gs ds w = (Ok r, w1) ->
  seed w1 = seed w /\
  out w1 = out w ++ repeat (PbarUpdate 1) (List.length batches).
Proof.
  revert l gs ds w. induction batches as [|x xs IH]; intros l gs ds w E.
  - cbn in E. injection E as _ <-. cbn. now rewrite app_nil_r.
  - rewrite batch_loop_cons in E.
    destruct (train_step_keeps x w) as [S1 O1].
    destruct (train_step x w) as [[[g d]|e] w0]; [|discriminate].
    cbn [snd] in S1, O1.
    destruct (IH _ _ _ _ E) as [S2 O2]. split; [now rewrite S2|].
    rewrite O2. cbn [add_out out List.length repeat].
    rewrite O1, <- app_assoc. reflexivity.
Qed.

(** what a completed epoch went through *)
Lemma epoch_body_inv dataset_size batch_size epoch batches l (w : World C) l' w' :
  epoch_body dataset_size batch_size epoch batches l w = (Ok l', w') ->
  exists n gs ds w1 gr d,
    batch_num_of dataset_size batch_size = Ok n /\
    batch_loop batches l (PyFloat zero) (PyFloat zero)
      (add_out [PbarOpen n (epoch + 1)] w) = (Ok (l', gs, ds), w1) /\
    truediv gs n = Ok gr /\
    local_disc_loss l' = Some d /\
    w' = add_out (epoch_events epoch w1 ++
                  [Print (GeneratorLossIs gr);
                   Print (DiscriminatorLossIs (Tensor (div d n)));
                   PbarClose]) w1 /\
    seed w1 = seed w /\
    out w1 = out w ++ PbarOpen n (epoch + 1)
                   :: repeat (PbarUpdate 1) (List.length batches).
Proof.
  intros E.
  destruct (batch_num_of dataset_size batch_size) as [n|e] eqn:Hn.
  2:{ rewrite (epoch_body_no_count _ _ _ _ _ _ _ Hn) in E. discriminate. }
  destruct (batch_loop batches l (PyFloat zero) (PyFloat zero)
              (add_out [PbarOpen n (epoch + 1)] w))
    as [[[[l1 gs] ds]|e] w1] eqn:Hb.
  2:{ rewrite (epoch_body_step_fails _ _ _ _ _ _ _ _ _ Hn Hb) in E.
      discriminate. }
  rewrite (epoch_body_run _ _ _ _ _ _ _ _ _ _ _ Hn Hb) in E.
  destruct (batch_loop_ok_out _ _ _ _ _ _ _ Hb) as [S1 O1].
  destruct (truediv gs n) as [gr|e] eqn:Ht; [|discriminate].
  destruct (local_disc_loss l1) as [d|] eqn:Hl; [|discriminate].
  injection E as <- <-.
  exists n, gs, ds, w1, gr, d. repeat split; try assumption; try reflexivity.
  rewrite O1. cbn [add_out out]. now rewrite <- app_assoc.
Qed.

(** what a completed sequence of epochs left in the output *)
Lemma epoch_loop_inv (dataset : Dataset) dataset_size batch_size es l (w : World C)
    l' w' :
  epoch_loop dataset dataset_size batch_size es l w = (Ok l', w') ->
  seed w' = seed w /\
  exists new,
    out w' = out w ++ new /\
    map (fun x => (snd (fst x), snd x)) (samples new)
      = map (fun e => (e + 1, seed w)) es /\
    map snd (checkpoints new) = map (fun _ => checkpoint_prefix) es /\
    map snd (exports new) = map (fun _ => "./models/1/"%string) es /\
    steps new
      = list_sum (map (fun e => List.length (dataset (Z.to_nat e))) es).
Proof.
  revert l w. induction es as [|e es IH]; intros l w E.
  - cbn in E. injection E as _ <-. split; [reflexivity|].
    exists []. cbn. rewrite app_nil_r. repeat split.
  - cbn [epoch_loop] in E. unfold bind at 1 in E.
    destruct (epoch_body dataset_size batch_size e (dataset (Z.to_nat e)) l w)
      as [[l1|x] w2] eqn:E1; [|discriminate].
    destruct (epoch_body_inv _ _ _ _ _ _ _ _ E1)
      as (n & gs & ds & w1 & gr & d & _ & _ & _ & _ & -> & S1 & O1).
    destruct (IH _ _ E) as (S' & new & O' & Sa & Ck & Ex & St).
    cbn [add_out seed out] in S', O', Sa. rewrite S1 in S', Sa.
    split; [exact S'|].
    exists (PbarOpen n (e + 1)
              :: repeat (PbarUpdate 1) (List.length (dataset (Z.to_nat e)))
            ++ epoch_events e w1
            ++ [Print (GeneratorLossIs gr);
                Print (DiscriminatorLossIs (Tensor (div d n))); PbarClose]
            ++ new).
    destruct (updates_only (List.length (dataset (Z.to_nat e))))
      as (U1 & U2 & U3 & _ & _ & U6).
    destruct (epoch_events_obs e w1) as (V1 & V2 & V3 & V4).
    split.
    { rewrite O', O1. rewrite <- !app_assoc. reflexivity. }
    repeat split.
    + cbn [samples]. rewrite !samples_app, U1, V1.
      cbn [app samples map fst snd]. rewrite Sa, S1. reflexivity.
    + cbn [checkpoints]. rewrite !checkpoints_app, U2, V2.
      cbn [app checkpoints map fst snd]. rewrite Ck. reflexivity.
    + cbn [exports]. rewrite !exports_app, U3, V3.
      cbn [app exports map fst snd]. rewrite Ex. reflexivity.
    + cbn [steps]. rewrite !steps_app, U6, V4.
      cbn [steps map]. rewrite St. unfold list_sum. cbn [fold_right]. lia.
Qed.

(** epochs that each have a batch, all with a leading dimension, complete *)
Lemma epoch_loop_completes (dataset : Dataset) dataset_size batch_size n es l
    (w : World C) :
  batch_num_of dataset_size batch_size = Ok n ->
  (forall e, In e es ->
     dataset (Z.to_nat e) <> [] /\ Forall ranked (dataset (Z.to_nat e))) ->
  exists l' w', epoch_loop dataset dataset_size batch_size es l w = (Ok l', w').
Proof.
  intros Hn. revert l w. induction es as [|e es IH]; intros l w Hd.
  - exists l, w. reflexivity.
  - destruct (Hd e (or_introl eq_refl)) as [Hne F].
    destruct (epoch_body_ok dataset_size batch_size e _ l w n Hn Hne F)
      as (g & d & w1 & gr & dr & E1 & _).
    cbn [epoch_loop]. unfold bind at 1. rewrite E1.
    apply IH. intros e' H'. apply Hd. now right.
Qed.

Lemma checkpoint_prefix_value :
  checkpoint_prefix = "./training_checkpoints/ckpt"%string.
Proof. reflexivity. Qed.

Lemma train_run (dataset : Dataset) epochs dataset_size batch_size (w : World C) :
  train dataset epochs dataset_size batch_size w =
  match epoch_loop dataset dataset_size batch_size (range epochs) no_locals w with
  | (Ok _, w1) =>
      (Ok tt, add_out [GenerateAndSaveImages (generator w1) epochs (seed w1)] w1)
  | (Raise e, w1) => (Raise e, w1)
  end.
Proof.
  unfold train. unfold bind at 1.
  destruct (epoch_loop _ _ _ _ _ _) as [[l1|e] w1]; reflexivity.
Qed.

Lemma train_completes (dataset : Dataset) epochs dataset_size batch_size n
    (w : World C) :
  batch_num_of dataset_size batch_size = Ok n ->
  (forall k, (k < Z.to_nat epochs)%nat ->
     dataset k <> [] /\ Forall ranked (dataset k)) ->
  exists w', train dataset epochs dataset_size batch_size w = (Ok tt, w').
Proof.
  intros Hn Hd.
  destruct (epoch_loop_completes dataset dataset_size batch_size n
              (range epochs) no_locals w Hn) as (l' & w1 & E).
  { intros e He. apply Hd. apply (range_in _ _ He). }
  rewrite train_run, E. eauto.
Qed.

(** what a completed run left in the output *)
Lemma train_inv (dataset : Dataset) epochs dataset_size batch_size (w w' : World C) :
  train dataset epochs dataset_size batch_size w = (Ok tt, w') ->
  exists w1 new,
    w' = add_out [GenerateAndSaveImages (generator w1) epochs (seed w)] w1 /\
    out w1 = out w ++ new /\
    map (fun x => (snd (fst x), snd x)) (samples new)
      = map (fun e => (e + 1, seed w)) (range epochs) /\
    map snd (checkpoints new) = map (fun _ => checkpoint_prefix) (range epochs) /\
    map snd (exports new) = map (fun _ => "./models/1/"%string) (range epochs) /\
    steps new
      = list_sum (map (fun e => List.length (dataset (Z.to_nat e))) (range epochs)).
Proof.
  intros E. rewrite train_run in E.
  destruct (epoch_loop dataset dataset_size batch_size (range epochs)
              no_locals w) as [[l1|x] w1] eqn:E1; [|discriminate].
  destruct (epoch_loop_inv _ _ _ _ _ _ _ _ E1)
    as (S1 & new & O1 & Sa & Ck & Ex & St).
  injection E as <-. exists w1, new. rewrite S1. repeat split; assumption.
Qed.

Lemma map_const_repeat {X Y} (y : Y) (xs : list X) :
  map (fun _ => y) xs = repeat y (List.length xs).
Proof. induction xs as [|x xs IH]; cbn; [reflexivity|now rewrite IH]. Qed.

(** C6.  A run of [epochs >= 1] epochs completes when the batch count
    computes and every epoch has at least one batch, all with a leading
    dimension.  Every run that completes has called
    [generate_and_save_images] [epochs + 1] times, always with the seed: once
    per epoch with label [epoch + 1], and once more at the end with the
    generator of the final state and label [epochs].  Within a completed
    epoch the call comes after the progress updates of all its batches and
    is the only one.  A call changes neither the training state nor the
    seed. *)
Theorem sampling_once_per_epoch_and_once_more
    (dataset : Dataset) epochs dataset_size batch_size (w : World C) :
  1 <= epochs ->
  (forall n,
     batch_num_of dataset_size batch_size = Ok n ->
     (forall k, (k < Z.to_nat epochs)%nat ->
        dataset k <> [] /\ Forall ranked (dataset k)) ->
     exists w', train dataset epochs dataset_size batch_size w = (Ok tt, w')) /\
  (forall w',
     train dataset epochs dataset_size batch_size w = (Ok tt, w') ->
     exists new earlier,
       out w' = out w ++ new /\
       samples new = earlier ++ [(generator w', epochs, seed w)] /\
       map (fun x => (snd (fst x), snd x)) earlier
         = map (fun e => (e + 1, seed w)) (range epochs) /\
       List.length (samples new) = (Z.to_nat epochs + 1)%nat) /\
  (forall epoch batches l (w0 : World C) l' w1,
     epoch_body dataset_size batch_size epoch batches l w0 = (Ok l', w1) ->
     exists n rest,
       out w1 = out w0
                ++ PbarOpen n (epoch + 1)
                   :: repeat (PbarUpdate 1) (List.length batches)
                ++ GenerateAndSaveImages (generator w1) (epoch + 1) (seed w0)
                   :: rest /\
       samples rest = []) /\
  (forall g e s (w0 : World C),
     exists w1,
       generate_and_save_images g e s w0 = (Ok tt, w1) /\
       training_state w1 = training_state w0 /\
       seed w1 = seed w0).
Proof.
  intros HE. split; [|split; [|split]].
  - intros n Hn Hd. apply (train_completes _ _ _ _ n); assumption.
  - intros w' E.
    destruct (train_inv _ _ _ _ _ _ E) as (w1 & new & -> & O1 & Sa & _).
    exists (new ++ [GenerateAndSaveImages (generator w1) epochs (seed w)]),
      (samples new).
    cbn [add_out out generator].
    split; [now rewrite O1, app_assoc|].
    split; [now rewrite samples_app|].
    split; [exact Sa|].
    rewrite samples_app, length_app. cbn [samples List.length].
    apply (f_equal (@List.length _)) in Sa.
    rewrite !length_map, range_length in Sa. now rewrite Sa.
  - intros epoch batches l w0 l' w1 E.
    destruct (epoch_body_inv _ _ _ _ _ _ _ _ E)
      as (n & gs & ds & w2 & gr & d & _ & _ & _ & _ & -> & S2 & O2).
    exists n. eexists.
    cbn [add_out out generator]. rewrite O2, <- S2.
    unfold epoch_events. cbn [app]. rewrite <- app_assoc. cbn [app].
    split; reflexivity.
  - intros g e s w0. eexists. split; [reflexivity|]. split; reflexivity.
Qed.

(** C7.  A run completes when every epoch has at least one batch, all with
    a leading dimension.  Every run that completes has saved [epochs]
    checkpoints, all under "./training_checkpoints/ckpt", and exported the
    generator [epochs] times, always to "./models/1/".  In every epoch whose
    batch loop ends, whatever the reports do afterwards, the output after
    the batch loop holds exactly one checkpoint, of both optimizers and both
    networks as the batch loop left them, exactly one export of the
    generator as the batch loop left it, and no further train-step. *)
Theorem checkpoint_and_export_every_epoch
    (dataset : Dataset) epochs dataset_size batch_size n (w : World C) :
  batch_num_of dataset_size batch_size = Ok n ->
  ((forall k, (k < Z.to_nat epochs)%nat ->
      dataset k <> [] /\ Forall ranked (dataset k)) ->
   exists w', train dataset epochs dataset_size batch_size w = (Ok tt, w')) /\
  (forall w',
     train dataset epochs dataset_size batch_size w = (Ok tt, w') ->
     exists new,
       out w' = out w ++ new /\
       map snd (checkpoints new)
         = repeat "./training_checkpoints/ckpt"%string (Z.to_nat epochs) /\
       map snd (exports new) = repeat "./models/1/"%string (Z.to_nat epochs)) /\
  (forall epoch batches l (w0 : World C) l1 gs ds w1,
     batch_loop batches l (PyFloat zero) (PyFloat zero)
       (add_out [PbarOpen n (epoch + 1)] w0) = (Ok (l1, gs, ds), w1) ->
     exists new,
       out (snd (epoch_body dataset_size batch_size epoch batches l w0))
         = out w1 ++ new /\
       checkpoints new
         = [(mk_checkpoint (generator_optimizer w1) (discriminator_optimizer w1)
               (generator w1) (discriminator w1),
             "./training_checkpoints/ckpt"%string)] /\
       exports new = [(generator w1, "./models/1/"%string)] /\
       steps new = O).
Proof.
  intros Hn. split; [|split].
  - intros Hd. apply (train_completes _ _ _ _ n); assumption.
  - intros w' E.
    destruct (train_inv _ _ _ _ _ _ E) as (w1 & new & -> & O1 & _ & Ck & Ex & _).
    exists (new ++ [GenerateAndSaveImages (generator w1) epochs (seed w)]).
    cbn [add_out out].
    split; [now rewrite O1, app_assoc|].
    rewrite checkpoints_app, exports_app. cbn [checkpoints exports].
    rewrite !app_nil_r, Ck, Ex, !map_const_repeat, range_length.
    split; reflexivity.
  - intros epoch batches l w0 l1 gs ds w1 E1.
    rewrite (epoch_body_run _ _ _ _ _ _ _ _ _ _ _ Hn E1).
    report_cases gs n l1; eexists; cbn [snd add_out out];
      (split; [reflexivity|]); autorewrite with trace; repeat split.
Qed.

(** C10.  With [epochs = 0], [train] returns normally; its whole output is
    one call of [generate_and_save_images] with the generator, label 0 and
    the seed: no train-step, no checkpoint and no export, and the training
    state is untouched. *)
Theorem zero_epochs_samples_once
    (dataset : Dataset) dataset_size batch_size (w : World C) :
  train dataset 0 dataset_size batch_size w =
    (Ok tt, add_out [GenerateAndSaveImages (generator w) 0 (seed w)] w) /\
  training_state (snd (train dataset 0 dataset_size batch_size w))
    = training_state w /\
  steps [GenerateAndSaveImages (generator w) 0 (seed w)] = O /\
  checkpoints [GenerateAndSaveImages (generator w) 0 (seed w)] = [] /\
  exports [GenerateAndSaveImages (generator w) 0 (seed w)] = [] /\
  samples [GenerateAndSaveImages (generator w) 0 (seed w)]
    = [(generator w, 0, seed w)].
Proof.
  assert (train dataset 0 dataset_size batch_size w =
          (Ok tt, add_out [GenerateAndSaveImages (generator w) 0 (seed w)] w))
    as E.
  { rewrite train_run, range_nonpos by lia. reflexivity. }
  rewrite E. repeat split.
Qed.


(** *** The seed through arbitrary runs *)




Lemma batch_loop_keeps (batches : list (tensor Scalar)) l gs ds (w : World C) :
  seed (snd (batch_loop batches l gs ds w)) = seed w /\
  exists k, out (snd (batch_loop batches l gs ds w))
            = out w ++ repeat (PbarUpdate 1) k.
Proof.
  revert l gs ds w. induction batches as [|x xs IH]; intros l gs ds w.
  - split; [reflexivity|]. exists O. cbn. now rewrite app_nil_r.
  - rewrite batch_loop_cons.
    destruct (train_step_keeps x w) as [S1 O1].
    destruct (train_step x w) as [[[g d]|e] w1]; cbn [snd] in *.
    + destruct (IH (mk_locals (Some g) (Some d)) (iadd gs g) (iadd ds d)
                   (add_out [PbarUpdate 1] w1)) as [S2 [k O2]].
      split; [rewrite S2; exact S1|].
      exists (S k). rewrite O2. cbn [add_out out repeat].
      rewrite O1, <- app_assoc. reflexivity.
    + split; [exact S1|]. exists O. cbn. now rewrite app_nil_r.
Qed.







(** C9, as amended.  When the first pass over the dataset yields no batch
    and the batch count [n] computes, a run of at least one epoch raises
    during the reports of the first epoch, after the sampling, the
    checkpoint and the export: [ZeroDivisionError] in the generator-loss
    report when [n = 0], and otherwise [UnboundLocalError] for [disc_loss]
    in the discriminator-loss report, after the generator-loss line. *)
Theorem empty_first_epoch_fails_in_report
    (dataset : Dataset) epochs dataset_size batch_size n (w : World C) :
  1 <= epochs ->
  dataset O = [] ->
  batch_num_of dataset_size batch_size = Ok n ->
  train dataset epochs dataset_size batch_size w =
    (Raise (if n =? 0 then ZeroDivisionError
            else UnboundLocalError "disc_loss"),
     add_out
       ([PbarOpen n 1;
         GenerateAndSaveImages (generator w) 1 (seed w);
         CheckpointSave (checkpoint w) "./training_checkpoints/ckpt";
         Print SavingModel;
         SavedModelSave (generator w) "./models/1/";
         Print (TimeForEpoch 1)]
        ++ (if n =? 0 then []
            else [Print (GeneratorLossIs (PyFloat (div zero n)))])
        ++ [PbarClose]) w).
Proof.
  intros HE Hd Hn. rewrite train_run.
  destruct (range_pos epochs HE) as [rest ->].
  cbn [epoch_loop]. unfold bind at 1.
  change (Z.to_nat 0) with O. rewrite Hd.
  rewrite (epoch_body_run dataset_size batch_size 0 [] no_locals w n
             no_locals (PyFloat zero) (PyFloat zero)
             (add_out [PbarOpen n (0 + 1)] w) Hn eq_refl).
  cbn [truediv local_disc_loss no_locals].
  destruct (n =? 0); rewrite add_out_add_out; reflexivity.
Qed.

End Runs.

(** * Further properties of the loop *)

Section Steps.
Context {C : Carriers} {B : Backend C}.

(** [train_step] reads and writes the training state only *)
Lemma train_step_same_training (images : tensor Scalar) (w1 w2 : World C) :
  same_training w1 w2 ->
  fst (train_step images w1) = fst (train_step images w2) /\
  same_training (snd (train_step images w1)) (snd (train_step images w2)).
Proof.
  unfold same_training, training_state. intros E.
  injection E as Eg Ed Ego Edo Er.
  destruct (shape images) as [|b sh] eqn:Sh.
  - rewrite !train_step_unranked by assumption. cbn [fst snd].
    split; [reflexivity|]. congruence.
  - rewrite (train_step_run images b sh w1 Sh), (train_step_run images b sh w2 Sh).
    cbn [fst snd generator discriminator generator_optimizer
         discriminator_optimizer rng].
    rewrite Eg, Ed, Ego, Edo, Er. split; reflexivity.
Qed.


Lemma train_steps_same_training (batches : list (tensor Scalar)) (w1 w2 : World C) :
  same_training w1 w2 ->
  same_training (train_steps batches w1) (train_steps batches w2).
Proof.
  revert w1 w2. induction batches as [|x xs IH]; intros w1 w2 E; [exact E|].
  cbn [train_steps].
  destruct (train_step_same_training x w1 w2 E) as [Ef Es].
  destruct (train_step x w1) as [[p1|e1] u1];
    destruct (train_step x w2) as [[p2|e2] u2]; cbn [fst snd] in *;
    try discriminate; auto.
Qed.

Lemma add_out_same_training (es : list event) (w : World C) :
  same_training (add_out es w) w.
Proof. reflexivity. Qed.

Lemma same_training_trans (w1 w2 w3 : World C) :
  same_training w1 w2 -> same_training w2 w3 -> same_training w1 w3.
Proof. unfold same_training. congruence. Qed.

Lemma same_training_sym (w1 w2 : World C) :
  same_training w1 w2 -> same_training w2 w1.
Proof. unfold same_training. congruence. Qed.

(** the batch loop, whatever its outcome, leaves the training state of the
    train-steps taken in turn *)
Lemma batch_loop_train_steps (batches : list (tensor Scalar)) l gs ds (w : World C) :
  same_training (snd (batch_loop batches l gs ds w)) (train_steps batches w).
Proof.
  revert l gs ds w. induction batches as [|x xs IH]; intros l gs ds w.
  - reflexivity.
  - rewrite batch_loop_cons. cbn [train_steps].
    destruct (train_step x w) as [[[g d]|e] w1]; [|reflexivity].
    eapply same_training_trans; [apply IH|].
    apply train_steps_same_training, add_out_same_training.
Qed.



Lemma batch_loop_same_training (batches : list (tensor Scalar)) l gs ds
    (w1 w2 : World C) :
  same_training w1 w2 ->
  fst (batch_loop batches l gs ds w1) = fst (batch_loop batches l gs ds w2) /\
  same_training (snd (batch_loop batches l gs ds w1))
                (snd (batch_loop batches l gs ds w2)).
Proof.
  revert l gs ds w1 w2.
  induction batches as [|x xs IH]; intros l gs ds w1 w2 E.
  - split; [reflexivity|exact E].
  - rewrite !batch_loop_cons.
    destruct (train_step_same_training x w1 w2 E) as [Ef Es].
    destruct (train_step x w1) as [[[g1 d1]|e1] u1];
      destruct (train_step x w2) as [[[g2 d2]|e2] u2]; cbn [fst snd] in *;
      try discriminate.
    + injection Ef as <- <-. apply IH.
      eapply same_training_trans; [apply add_out_same_training|].
      eapply same_training_trans; [exact Es|].
      apply same_training_sym, add_out_same_training.
    + injection Ef as <-. split; [reflexivity|exact Es].
Qed.

Lemma epoch_body_same_training dataset_size batch_size epoch batches l
    (w1 w2 : World C) :
  same_training w1 w2 ->
  fst (epoch_body dataset_size batch_size epoch batches l w1)
    = fst (epoch_body dataset_size batch_size epoch batches l w2) /\
  same_training (snd (epoch_body dataset_size batch_size epoch batches l w1))
                (snd (epoch_body dataset_size batch_size epoch batches l w2)).
Proof.
  intros E.
  destruct (batch_num_of dataset_size batch_size) as [n|e] eqn:Hn.
  2:{ rewrite !(epoch_body_no_count _ _ _ _ _ _ _ Hn). split; [reflexivity|exact E]. }
  destruct (batch_loop_same_training batches l (PyFloat zero) (PyFloat zero)
              (add_out [PbarOpen n (epoch + 1)] w1)
              (add_out [PbarOpen n (epoch + 1)] w2)) as [Ef Es].
  { eapply same_training_trans; [apply add_out_same_training|].
    eapply same_training_trans; [exact E|].
    apply same_training_sym, add_out_same_training. }
  destruct (batch_loop batches l (PyFloat zero) (PyFloat zero)
              (add_out [PbarOpen n (epoch + 1)] w1))
    as [[[[l1 gs1] ds1]|e1] u1] eqn:H1;
    destruct (batch_loop batches l (PyFloat zero) (PyFloat zero)
                (add_out [PbarOpen n (epoch + 1)] w2))
      as [[[[l2 gs2] ds2]|e2] u2] eqn:H2; cbn [fst snd] in *;
    try discriminate.
  - injection Ef as <- <- <-.
    rewrite (epoch_body_run _ _ _ _ _ _ _ _ _ _ _ Hn H1),
            (epoch_body_run _ _ _ _ _ _ _ _ _ _ _ Hn H2).
    report_cases gs1 n l1; cbn [fst snd]; (split; [reflexivity|]);
      (eapply same_training_trans; [apply add_out_same_training|]);
      (eapply same_training_trans; [exact Es|]);
      apply same_training_sym, add_out_same_training.
  - rewrite (epoch_body_step_fails _ _ _ _ _ _ _ _ _ Hn H1),
            (epoch_body_step_fails _ _ _ _ _ _ _ _ _ Hn H2).
    cbn [fst snd]. injection Ef as <-. split; [reflexivity|].
    eapply same_training_trans; [apply add_out_same_training|].
    eapply same_training_trans; [exact Es|].
    apply same_training_sym, add_out_same_training.
Qed.

Lemma epoch_loop_same_training (dataset : Dataset) dataset_size batch_size es l
    (w1 w2 : World C) :
  same_training w1 w2 ->
  fst (epoch_loop dataset dataset_size batch_size es l w1)
    = fst (epoch_loop dataset dataset_size batch_size es l w2) /\
  same_training (snd (epoch_loop dataset dataset_size batch_size es l w1))
                (snd (epoch_loop dataset dataset_size batch_size es l w2)).
Proof.
  revert l w1 w2. induction es as [|e es IH]; intros l w1 w2 E.
  - split; [reflexivity|exact E].
  - cbn [epoch_loop]. unfold bind.
    destruct (epoch_body_same_training dataset_size batch_size e
                (dataset (Z.to_nat e)) l w1 w2 E) as [Ef Es].
    destruct (epoch_body dataset_size batch_size e (dataset (Z.to_nat e)) l w1)
      as [[l1|e1] u1];
      destruct (epoch_body dataset_size batch_size e (dataset (Z.to_nat e)) l w2)
        as [[l2|e2] u2]; cbn [fst snd] in *; try discriminate.
    + injection Ef as <-. apply IH, Es.
    + injection Ef as <-. split; [reflexivity|exact Es].
Qed.

(** X3.  Neither the seed nor what was output before has any influence on
    training: from two worlds that agree on the networks, the optimizers
    and the random source, a run ends the same way (same value or same
    exception) and leaves worlds that agree on them again. *)
Theorem training_ignores_seed_and_output
    (dataset : Dataset) epochs dataset_size batch_size (w1 w2 : World C) :
  same_training w1 w2 ->
  fst (train dataset epochs dataset_size batch_size w1)
    = fst (train dataset epochs dataset_size batch_size w2) /\
  same_training (snd (train dataset epochs dataset_size batch_size w1))
                (snd (train dataset epochs dataset_size batch_size w2)).
Proof.
  intros E. rewrite !train_run.
  destruct (epoch_loop_same_training dataset dataset_size batch_size
              (range epochs) no_locals w1 w2 E) as [Ef Es].
  destruct (epoch_loop dataset dataset_size batch_size (range epochs)
              no_locals w1) as [[l1|e1] u1];
    destruct (epoch_loop dataset dataset_size batch_size (range epochs)
                no_locals w2) as [[l2|e2] u2]; cbn [fst snd] in *;
    try discriminate.
  - split; [reflexivity|].
    eapply same_training_trans; [apply add_out_same_training|].
    eapply same_training_trans; [exact Es|].
    apply same_training_sym, add_out_same_training.
  - injection Ef as <-. split; [reflexivity|exact Es].
Qed.

End Steps.

(** ** What every run leaves in the output *)

Section Balance.
Context {C : Carriers} {B : Backend C}.

Lemma pbar_opens_app (xs ys : list (@event C)) :
  pbar_opens (xs ++ ys) = (pbar_opens xs + pbar_opens ys)%nat.
Proof.
  induction xs as [|x xs IH]; [reflexivity|].
  destruct x; cbn; rewrite ?IH; reflexivity.
Qed.

Lemma pbar_closes_app (xs ys : list (@event C)) :
  pbar_closes (xs ++ ys) = (pbar_closes xs + pbar_closes ys)%nat.
Proof.
  induction xs as [|x xs IH]; [reflexivity|].
  destruct x; cbn; rewrite ?IH; reflexivity.
Qed.

Lemma balanced_nil : balanced (@nil (@event C)).
Proof. repeat split. Qed.

Lemma balanced_app (xs ys : list (@event C)) :
  balanced xs -> balanced ys -> balanced (xs ++ ys).
Proof.
  intros (O1 & C1 & S1) (O2 & C2 & S2). unfold balanced.
  rewrite pbar_opens_app, pbar_closes_app, checkpoints_app, exports_app,
    samples_app, !length_app. lia.
Qed.

Lemma balanced_updates (k : nat) : balanced (repeat (@PbarUpdate C 1) k).
Proof. induction k as [|k IH]; [apply balanced_nil|exact IH]. Qed.

(** an epoch's output, from the opening of its bar to its closing *)
Lemma balanced_epoch n epoch k (mid : list (@event C)) :
  pbar_opens mid = O -> pbar_closes mid = O ->
  List.length (checkpoints mid) = List.length (exports mid) ->
  List.length (samples mid) = List.length (checkpoints mid) ->
  balanced (PbarOpen n epoch :: repeat (PbarUpdate 1) k ++ mid ++ [PbarClose]).
Proof.
  intros O1 O2 Ck Sa.
  change (balanced ([PbarOpen n epoch] ++ repeat (PbarUpdate 1) k
                    ++ mid ++ [PbarClose])).
  destruct (balanced_updates k) as (U1 & U2 & U3).
  unfold balanced.
  rewrite !pbar_opens_app, !pbar_closes_app, !checkpoints_app, !exports_app,
    !samples_app, !length_app.
  cbn [pbar_opens pbar_closes checkpoints exports samples List.length].
  lia.
Qed.

Lemma epoch_body_balanced dataset_size batch_size epoch batches l (w : World C) :
  exists new,
    out (snd (epoch_body dataset_size batch_size epoch batches l w))
      = out w ++ new /\
    balanced new.
Proof.
  destruct (batch_num_of dataset_size batch_size) as [n|e] eqn:Hn.
  2:{ rewrite (epoch_body_no_count _ _ _ _ _ _ _ Hn). exists [].
      cbn [snd]. rewrite app_nil_r. split; [reflexivity|apply balanced_nil]. }
  destruct (batch_loop_keeps batches l (PyFloat zero) (PyFloat zero)
              (add_out [PbarOpen n (epoch + 1)] w)) as [_ [k O1]].
  destruct (batch_loop batches l (PyFloat zero) (PyFloat zero)
              (add_out [PbarOpen n (epoch + 1)] w))
    as [[[[l1 gs] ds]|e] w1] eqn:Hb; cbn [snd add_out out] in O1.
  - rewrite (epoch_body_run _ _ _ _ _ _ _ _ _ _ _ Hn Hb).
    report_cases gs n l1; cbn [snd add_out out]; rewrite O1;
      rewrite <- !app_assoc; cbn [app];
      (eexists; split; [reflexivity|]).
    + apply (balanced_epoch n (epoch + 1) k
               (epoch_events epoch w1 ++
                [Print (GeneratorLossIs gr);
                 Print (DiscriminatorLossIs (Tensor (div d n)))]));
        reflexivity.
    + apply (balanced_epoch n (epoch + 1) k
               (epoch_events epoch w1 ++ [Print (GeneratorLossIs gr)]));
        reflexivity.
    + apply (balanced_epoch n (epoch + 1) k (epoch_events epoch w1));
        reflexivity.
  - rewrite (epoch_body_step_fails _ _ _ _ _ _ _ _ _ Hn Hb).
    cbn [snd add_out out]. rewrite O1, <- !app_assoc. cbn [app].
    eexists; split; [reflexivity|].
    apply (balanced_epoch n (epoch + 1) k []); reflexivity.
Qed.

Lemma epoch_loop_balanced (dataset : Dataset) dataset_size batch_size es l
    (w : World C) :
  exists new,
    out (snd (epoch_loop dataset dataset_size batch_size es l w))
      = out w ++ new /\
    balanced new.
Proof.
  revert l w. induction es as [|e es IH]; intros l w.
  - exists []. cbn. rewrite app_nil_r. split; [reflexivity|apply balanced_nil].
  - cbn [epoch_loop]. unfold bind.
    destruct (epoch_body_balanced dataset_size batch_size e
                (dataset (Z.to_nat e)) l w) as (n1 & O1 & B1).
    destruct (epoch_body dataset_size batch_size e (dataset (Z.to_nat e)) l w)
      as [[l1|x] w1]; cbn [snd] in *.
    + destruct (IH l1 w1) as (n2 & O2 & B2).
      exists (n1 ++ n2). rewrite O2, O1, app_assoc.
      split; [reflexivity|now apply balanced_app].
    + exists n1. split; assumption.
Qed.

(** what any run, complete or aborted, appends to the output *)
Lemma train_output (dataset : Dataset) epochs dataset_size batch_size (w : World C) :
  exists new,
    out (snd (train dataset epochs dataset_size batch_size w)) = out w ++ new /\
    pbar_opens new = pbar_closes new /\
    List.length (checkpoints new) = List.length (exports new) /\
    List.length (samples new)
      = (List.length (checkpoints new)
         + match fst (train dataset epochs dataset_size batch_size w) with
           | Ok _ => 1
           | Raise _ => 0
           end)%nat.
Proof.
  rewrite train_run.
  destruct (epoch_loop_balanced dataset dataset_size batch_size (range epochs)
              no_locals w) as (new & O1 & Bo & Bc & Bs).
  destruct (epoch_loop dataset dataset_size batch_size (range epochs)
              no_locals w) as [[l1|x] w1]; cbn [fst snd] in *.
  - exists (new ++ [GenerateAndSaveImages (generator w1) epochs (seed w1)]).
    cbn [add_out out]. rewrite O1, app_assoc. split; [reflexivity|].
    rewrite pbar_opens_app, pbar_closes_app, checkpoints_app, exports_app,
      samples_app, !length_app.
    cbn [pbar_opens pbar_closes checkpoints exports samples List.length].
    lia.
  - exists new. repeat split; try assumption. lia.
Qed.

(** X4.  In every run, complete or aborted at any point, each progress bar
    that was opened has been closed. *)
Theorem progress_bars_always_closed
    (dataset : Dataset) epochs dataset_size batch_size (w : World C) :
  exists new,
    out (snd (train dataset epochs dataset_size batch_size w)) = out w ++ new /\
    pbar_opens new = pbar_closes new.
Proof.
  destruct (train_output dataset epochs dataset_size batch_size w)
    as (new & O1 & Bo & _).
  exists new. split; assumption.
Qed.


End Balance.

(** ** Runs that abort, and degenerate runs *)

Section Edges.
Context {C : Carriers} {B : Backend C}.

(** X6.  For sizes below [2 ^ 53] the batch count is computed without
    error, is at least 1, and is the least number of batches of
    [batch_size] that hold [dataset_size] images. *)
Theorem batch_count_covers_dataset (dataset_size batch_size : Z) :
  0 < dataset_size < 2 ^ 53 ->
  0 < batch_size < 2 ^ 53 ->
  exists n,
    batch_num_of dataset_size batch_size = Ok n /\
    1 <= n /\
    (n - 1) * batch_size < dataset_size <= n * batch_size.
Proof.
  intros Hd Hb. exists (ceil_quot dataset_size batch_size).
  pose proof (ceil_quot_bounds dataset_size batch_size ltac:(lia)) as H.
  split; [now apply batch_num_exact|]. split; [nia|exact H].
Qed.

(** X7.  With [batch_size = 0] a run of at least one epoch raises
    [ZeroDivisionError] while computing the batch count of the first epoch:
    nothing is output and nothing is trained, whatever the dataset. *)
Theorem zero_batch_size_raises_at_once
    (dataset : Dataset) epochs dataset_size (w : World C) :
  1 <= epochs ->
  train dataset epochs dataset_size 0 w = (Raise ZeroDivisionError, w).
Proof.
  intros HE. rewrite train_run.
  destruct (range_pos epochs HE) as [rest ->].
  cbn [epoch_loop]. unfold bind at 1.
  rewrite (epoch_body_no_count dataset_size 0 0 (dataset (Z.to_nat 0))
             no_locals w ZeroDivisionError); reflexivity.
Qed.

(** X8.  With [epochs <= 0], also negative, no epoch runs: the whole effect
    of [train] is the final sampling call, labelled with [epochs] itself. *)
Theorem nonpositive_epochs_sample_once
    (dataset : Dataset) epochs dataset_size batch_size (w : World C) :
  epochs <= 0 ->
  train dataset epochs dataset_size batch_size w =
    (Ok tt, add_out [GenerateAndSaveImages (generator w) epochs (seed w)] w).
Proof.
  intros HE. rewrite train_run, range_nonpos by assumption. reflexivity.
Qed.


Lemma epoch_loop_app (dataset : Dataset) dataset_size batch_size es1 es2 l
    (w : World C) :
  epoch_loop dataset dataset_size batch_size (es1 ++ es2) l w =
  match epoch_loop dataset dataset_size batch_size es1 l w with
  | (Ok l1, w1) => epoch_loop dataset dataset_size batch_size es2 l1 w1
  | (Raise e, w1) => (Raise e, w1)
  end.
Proof.
  revert l w. induction es1 as [|e es1 IH]; intros l w; [reflexivity|].
  cbn [app epoch_loop]. unfold bind.
  destruct (epoch_body dataset_size batch_size e (dataset (Z.to_nat e)) l w)
    as [[l1|x] w1]; [apply IH|reflexivity].
Qed.

Lemma range_snoc (n : Z) : 1 <= n -> range n = range (n - 1) ++ [n - 1].
Proof.
  intros H. unfold range.
  replace (Z.to_nat n) with (S (Z.to_nat (n - 1))) by lia.
  rewrite seq_S, map_app. cbn [map Nat.add]. f_equal. f_equal. lia.
Qed.

Lemma range_tail (n : Z) :
  1 <= n ->
  exists rest, range n = 0 :: rest /\
               List.length rest = (Z.to_nat n - 1)%nat /\
               forall e, In e rest -> (0 < Z.to_nat e)%nat.
Proof.
  intros H. unfold range.
  destruct (Z.to_nat n) as [|k] eqn:E; [lia|].
  exists (map Z.of_nat (seq 1 k)). cbn [seq map].
  split; [reflexivity|]. split; [rewrite length_map, length_seq; lia|].
  intros e He. apply in_map_iff in He. destruct He as (j & <- & Hj).
  apply in_seq in Hj. lia.
Qed.

(** the last epoch of a completed run, and the call that follows it *)
Lemma train_last_epoch (dataset : Dataset) epochs dataset_size batch_size
    (w w' : World C) :
  1 <= epochs ->
  train dataset epochs dataset_size batch_size w = (Ok tt, w') ->
  exists w1 pre gr dr,
    out w1 = out w ++ pre /\
    seed w1 = seed w /\
    w' = add_out (epoch_events (epochs - 1) w1 ++
                  [Print (GeneratorLossIs gr); Print (DiscriminatorLossIs dr);
                   PbarClose;
                   GenerateAndSaveImages (generator w1) epochs (seed w1)]) w1.
Proof.
  intros HE E. rewrite train_run, (range_snoc epochs HE), epoch_loop_app in E.
  destruct (epoch_loop dataset dataset_size batch_size (range (epochs - 1))
              no_locals w) as [[l0|x] w0] eqn:E0; [|discriminate].
  destruct (epoch_loop_inv _ _ _ _ _ _ _ _ E0) as (S0 & new0 & O0 & _).
  cbn [epoch_loop] in E. unfold bind in E.
  destruct (epoch_body dataset_size batch_size (epochs - 1)
              (dataset (Z.to_nat (epochs - 1))) l0 w0)
    as [[l1|x] w2] eqn:E1; [|discriminate].
  destruct (epoch_body_inv _ _ _ _ _ _ _ _ E1)
    as (n & gs & ds & w1 & gr & d & _ & _ & _ & _ & -> & S1 & O1).
  cbn [ret] in E. injection E as <-.
  exists w1. eexists _, gr, _.
  split; [rewrite O1, O0, <- app_assoc; reflexivity|].
  split; [congruence|].
  rewrite add_out_add_out. reflexivity.
Qed.

(** X10.  In a completed run of at least one epoch the final sampling call
    has exactly the arguments of the last epoch's call: the generator of
    the final state, the label [epochs] and the seed. *)
Theorem final_sample_repeats_last_epoch
    (dataset : Dataset) epochs dataset_size batch_size (w w' : World C) :
  1 <= epochs ->
  train dataset epochs dataset_size batch_size w = (Ok tt, w') ->
  exists new before,
    out w' = out w ++ new /\
    samples new = before ++ [(generator w', epochs, seed w);
                             (generator w', epochs, seed w)].
Proof.
  intros HE E.
  destruct (train_last_epoch _ _ _ _ _ _ HE E)
    as (w1 & pre & gr & dr & O1 & S1 & ->).
  eexists _, (samples pre). cbn [add_out out generator].
  split; [rewrite O1, <- app_assoc; reflexivity|].
  rewrite samples_app, samples_app. cbn [samples epoch_events app].
  rewrite S1. replace (epochs - 1 + 1) with epochs by lia. reflexivity.
Qed.

(** X11.  In a completed run of at least one epoch the last checkpoint
    saved holds both optimizers and both networks as the run leaves them,
    and the last export is the final generator. *)
Theorem last_checkpoint_holds_final_state
    (dataset : Dataset) epochs dataset_size batch_size (w w' : World C) :
  1 <= epochs ->
  train dataset epochs dataset_size batch_size w = (Ok tt, w') ->
  exists new saved exported,
    out w' = out w ++ new /\
    checkpoints new
      = saved ++ [(mk_checkpoint (generator_optimizer w')
                     (discriminator_optimizer w') (generator w')
                     (discriminator w'),
                   "./training_checkpoints/ckpt"%string)] /\
    exports new = exported ++ [(generator w', "./models/1/"%string)].
Proof.
  intros HE E.
  destruct (train_last_epoch _ _ _ _ _ _ HE E)
    as (w1 & pre & gr & dr & O1 & S1 & ->).
  eexists _, (checkpoints pre), (exports pre).
  cbn [add_out out generator discriminator generator_optimizer
       discriminator_optimizer].
  split; [rewrite O1, <- app_assoc; reflexivity|].
  rewrite checkpoints_app, checkpoints_app, exports_app, exports_app.
  split; reflexivity.
Qed.

(** epochs without batches, once [disc_loss] is bound: nothing is trained
    and the same two values are printed again *)
Lemma epoch_loop_empty (dataset : Dataset) dataset_size batch_size n es l d
    (w : World C) :
  batch_num_of dataset_size batch_size = Ok n ->
  n <> 0 ->
  (forall e, In e es -> dataset (Z.to_nat e) = []) ->
  local_disc_loss l = Some d ->
  exists w' new,
    epoch_loop dataset dataset_size batch_size es l w = (Ok l, w') /\
    same_training w' w /\
    out w' = out w ++ new /\
    gen_reports new = repeat (PyFloat (div zero n)) (List.length es) /\
    disc_reports new = repeat (Tensor (div d n)) (List.length es) /\
    steps new = O.
Proof.
  intros Hn Hz Hd Hl. revert w. induction es as [|e es IH]; intros w.
  - exists w, []. cbn. rewrite app_nil_r. repeat split.
  - cbn [epoch_loop]. unfold bind at 1.
    rewrite (Hd e (or_introl eq_refl)).
    rewrite (epoch_body_run dataset_size batch_size e [] l w n l
               (PyFloat zero) (PyFloat zero)
               (add_out [PbarOpen n (e + 1)] w) Hn eq_refl).
    cbn [truediv]. apply Z.eqb_neq in Hz. rewrite Hz, Hl.
    rewrite add_out_add_out.
    destruct (IH (fun e' H' => Hd e' (or_intror H'))
                 (add_out ([PbarOpen n (e + 1)] ++
                           epoch_events e (add_out [PbarOpen n (e + 1)] w) ++
                           [Print (GeneratorLossIs (PyFloat (div zero n)));
                            Print (DiscriminatorLossIs (Tensor (div d n)));
                            PbarClose]) w))
      as (w' & new & E & T & O1 & G & D & St).
    exists w'. eexists. split; [exact E|].
    split; [eapply same_training_trans; [exact T|apply add_out_same_training]|].
    split; [rewrite O1; cbn [add_out out]; rewrite <- app_assoc; reflexivity|].
    autorewrite with trace. rewrite G, D, St. repeat split.
Qed.

(** X12.  When only the first pass over the dataset yields batches (an
    iterator that is exhausted), a run over a nonzero batch count still
    completes: all training happens in the first epoch, and every later
    epoch prints the generator loss [0.0 / n] and repeats the discriminator
    loss of the first epoch, [disc_loss] keeping its last value. *)
Theorem exhausted_iterator_repeats_first_report
    (dataset : Dataset) epochs dataset_size batch_size n (w : World C) :
  1 <= epochs ->
  batch_num_of dataset_size batch_size = Ok n ->
  n <> 0 ->
  dataset O <> [] ->
  Forall ranked (dataset O) ->
  (forall k, (0 < k)%nat -> dataset k = []) ->
  exists w' new v d,
    train dataset epochs dataset_size batch_size w = (Ok tt, w') /\
    out w' = out w ++ new /\
    gen_reports new = v :: repeat (PyFloat (div zero n)) (Z.to_nat epochs - 1) /\
    disc_reports new = repeat (Tensor (div d n)) (Z.to_nat epochs) /\
    steps new = List.length (dataset O) /\
    same_training w' (train_steps (dataset O) w).
Proof.
  intros HE Hn Hz Hne F Hempty. rewrite train_run.
  destruct (range_tail epochs HE) as (rest & -> & Lr & Hr).
  cbn [epoch_loop]. unfold bind at 1. change (Z.to_nat 0) with O.
  destruct (epoch_body_ok dataset_size batch_size 0 (dataset O) no_locals w n
              Hn Hne F) as (g & d & w1 & gr & dr & E1 & S1 & O1).
  destruct (epoch_body_inv _ _ _ _ _ _ _ _ E1)
    as (n' & gs & ds & w1' & gr' & d' & Hn' & Hb & _ & Hl & Hw & _ & O1').
  assert (n' = n) as -> by congruence.
  cbn [local_disc_loss] in Hl. injection Hl as <-.
  rewrite E1. rewrite Hw.
  destruct (epoch_loop_empty dataset dataset_size batch_size n rest
              (mk_locals (Some g) (Some d)) d
              (add_out (epoch_events 0 w1' ++
                        [Print (GeneratorLossIs gr');
                         Print (DiscriminatorLossIs (Tensor (div d n)));
                         PbarClose]) w1') Hn Hz)
    as (w2 & new & E2 & T2 & O2 & G2 & D2 & St2).
  { intros e He. apply Hempty, Hr, He. }
  { reflexivity. }
  rewrite E2. eexists _, _, gr', d. split; [reflexivity|].
  cbn [add_out out]. rewrite O2. cbn [add_out out]. rewrite O1'.
  split; [rewrite <- !app_assoc; reflexivity|].
  destruct (updates_only (List.length (dataset O)))
    as (_ & _ & _ & U4 & U5 & U6).
  autorewrite with trace. cbn [gen_reports disc_reports steps epoch_events].
  rewrite U4, U5, U6, G2, D2, St2, Lr. cbn [app]. rewrite ?app_nil_r.
  split; [reflexivity|]. split.
  { replace (Z.to_nat epochs) with (S (Z.to_nat epochs - 1)) at 2 by lia.
    reflexivity. }
  split; [cbn; lia|].
  eapply same_training_trans; [apply add_out_same_training|].
  eapply same_training_trans; [exact T2|].
  eapply same_training_trans; [apply add_out_same_training|].
  pose proof (batch_loop_train_steps (dataset O) no_locals (PyFloat zero)
                (PyFloat zero) (add_out [PbarOpen n (0 + 1)] w)) as T.
  rewrite Hb in T. cbn [snd] in T.
  eapply same_training_trans; [exact T|].
  apply train_steps_same_training, add_out_same_training.
Qed.

End Edges.

(** * Runs on the toy backend *)

#[local] Existing Instance Toy.carriers.
#[local] Existing Instance Toy.backend.

Lemma toy_batches_ranked (k : nat) :
  Toy.dataset8 k <> [] /\ Forall ranked (Toy.dataset8 k).
Proof.
  split; [discriminate|ranked_batches].
Qed.

(** C1 on the toy backend: 8 images in two batches of 4. *)
Lemma disc_report_is_last_batch_loss_witness :
  exists g d wf,
    epoch_body (B := Toy.backend) 8 4 0 ([Toy.batch 4 1] ++ [Toy.batch 4 2])
      no_locals Toy.world0 = (Ok (mk_locals (Some g) (Some d)), wf) /\
    disc_reports (out wf) = disc_reports (out Toy.world0) ++ [Tensor (div d 2)].
Proof.
  destruct (disc_report_is_last_batch_loss (B := Toy.backend)
              8 4 0 [Toy.batch 4 1] (Toy.batch 4 2) no_locals Toy.world0 2)
    as (l1 & gs1 & ds1 & w1 & g & d & w2 & wf & _ & _ & _ & E & R & _).
  - vm_compute. reflexivity.
  - ranked_batches.
  - exists g, d, wf. split; assumption.
Defined.




(** C5 on the toy backend: two different real batches of 4. *)
Lemma losses_from_one_forward_pass_witness :
  exists gl dl1 dl2 w1 w2,
    train_step (B := Toy.backend) (Toy.batch 4 1) Toy.world0 = (Ok (gl, dl1), w1) /\
    train_step (B := Toy.backend) (Toy.batch 4 2) Toy.world0 = (Ok (gl, dl2), w2) /\
    generator w2 = generator w1.
Proof.
  destruct (losses_from_one_forward_pass (B := Toy.backend) (Toy.batch 4 1) 4
              [1; 1; 1]%nat Toy.world0 eq_refl) as (w1 & E1 & _ & _ & I).
  destruct (I (Toy.batch 4 2) [1; 1; 1]%nat eq_refl) as (dl2 & w2 & E2 & G).
  eexists _, _, dl2, w1, w2. split; [exact E1|]. split; [exact E2|exact G].
Defined.

(** C6 on the toy backend: two epochs over 8 images. *)
Lemma sampling_witness :
  exists w' new,
    train (B := Toy.backend) Toy.dataset8 2 8 4 Toy.world0 = (Ok tt, w') /\
    out w' = out Toy.world0 ++ new /\
    List.length (samples new) = 3%nat.
Proof.
  destruct (sampling_once_per_epoch_and_once_more (B := Toy.backend)
              Toy.dataset8 2 8 4 Toy.world0 ltac:(lia))
    as (Completes & Counted & _).
  destruct (Completes 2) as [w' E].
  - vm_compute. reflexivity.
  - intros k _. apply toy_batches_ranked.
  - destruct (Counted w' E) as (new & earlier & O & _ & _ & L).
    exists w', new. repeat split; assumption.
Defined.

(** C7 on the toy backend: two epochs over 8 images. *)
Lemma checkpoint_and_export_witness :
  exists w' new,
    train (B := Toy.backend) Toy.dataset8 2 8 4 Toy.world0 = (Ok tt, w') /\
    out w' = out Toy.world0 ++ new /\
    map snd (checkpoints new)
      = ["./training_checkpoints/ckpt"; "./training_checkpoints/ckpt"]%string /\
    map snd (exports new) = ["./models/1/"; "./models/1/"]%string.
Proof.
  destruct (checkpoint_and_export_every_epoch (B := Toy.backend)
              Toy.dataset8 2 8 4 2 Toy.world0)
    as (Completes & Counted & _).
  - vm_compute. reflexivity.
  - destruct Completes as [w' E].
    + intros k _. apply toy_batches_ranked.
    + destruct (Counted w' E) as (new & O & Ck & Ex).
      exists w', new. repeat split; assumption.
Defined.

(** C9 as amended, on an empty dataset declared to hold 8 images. *)
Lemma empty_first_epoch_witness :
  fst (train (B := Toy.backend) Toy.empty_dataset 1 8 4 Toy.world0)
  = Raise (UnboundLocalError "disc_loss").
Proof.
  rewrite (empty_first_epoch_fails_in_report (B := Toy.backend)
             Toy.empty_dataset 1 8 4 2 Toy.world0).
  - reflexivity.
  - lia.
  - reflexivity.
  - vm_compute. reflexivity.
Defined.

(** C9 as first stated fails: over an empty dataset of declared size 0 the
    run stops with [ZeroDivisionError] in the generator-loss report and
    never reaches the discriminator-loss report; and over an iterator
    exhausted by the first epoch, the second epoch has no batch and yet
    nothing is raised, [disc_loss] still being bound. *)
Lemma empty_dataset_fails_before_disc_report :
  Toy.empty_dataset O = [] /\
  fst (train (B := Toy.backend) Toy.empty_dataset 1 0 32 Toy.world0)
    = Raise ZeroDivisionError /\
  fst (train (B := Toy.backend) Toy.empty_dataset 1 0 32 Toy.world0)
    <> Raise (UnboundLocalError "disc_loss") /\
  Toy.one_shot 1%nat = [] /\
  fst (train (B := Toy.backend) Toy.one_shot 2 4 4 Toy.world0) = Ok tt.
Proof.
  split; [reflexivity|].
  split; [vm_compute; reflexivity|].
  split; [vm_compute; discriminate|].
  split; [reflexivity|vm_compute; reflexivity].
Qed.

(** the printed discriminator loss (last loss -6 over 2 batches) against the
    mean of the accumulated sum (6 over 2 batches) *)
Example toy_disc_report_is_not_the_mean :
  disc_reports (out (snd (train (B := Toy.backend) Toy.dataset8 1 8 4 Toy.world0)))
    = [Tensor (-3)] /\
  fst (batch_loop (B := Toy.backend) (Toy.dataset8 O) no_locals
         (PyFloat 0) (PyFloat 0) (add_out [PbarOpen 2 1] Toy.world0))
    = Ok (mk_locals (Some (-2)) (Some (-6)), Tensor (-2), Tensor 6) /\
  truediv (B := Toy.backend) (Tensor 6) 2 = Ok (Tensor 3).
Proof. vm_compute. repeat split. Qed.

(** one epoch over 8 images in batches of 4: two train-steps, one
    checkpoint, one export, and sample grids from the 16-row seed *)
Example toy_end_to_end :
  let w := snd (train (B := Toy.backend) Toy.dataset8 1 8 4 Toy.world0) in
  fst (train (B := Toy.backend) Toy.dataset8 1 8 4 Toy.world0) = Ok tt /\
  steps (out w) = 2%nat /\
  List.length (checkpoints (out w)) = 1%nat /\
  List.length (exports (out w)) = 1%nat /\
  map (fun x => shape (snd x)) (samples (out w))
    = [[16; 100]; [16; 100]]%nat.
Proof. vm_compute. repeat split. Qed.

(** ** Further runs *)

(** X3 on the toy backend: another seed and one more event in the output. *)
Lemma training_ignores_seed_and_output_witness :
  fst (train (B := Toy.backend) Toy.dataset8 2 8 4
         (with_seed (mk_tensor [1%nat] [7]) (add_out [PbarClose] Toy.world0)))
  = fst (train (B := Toy.backend) Toy.dataset8 2 8 4 Toy.world0) /\
  same_training
    (snd (train (B := Toy.backend) Toy.dataset8 2 8 4
            (with_seed (mk_tensor [1%nat] [7]) (add_out [PbarClose] Toy.world0))))
    (snd (train (B := Toy.backend) Toy.dataset8 2 8 4 Toy.world0)).
Proof.
  apply (training_ignores_seed_and_output (B := Toy.backend)).
  reflexivity.
Defined.

(** X6 for 100 images in batches of 32. *)
Lemma batch_count_covers_dataset_witness :
  exists n, batch_num_of 100 32 = Ok n /\ 1 <= n /\
            (n - 1) * 32 < 100 <= n * 32.
Proof.
  apply batch_count_covers_dataset; split; reflexivity.
Defined.

(** X7 on the toy backend. *)
Lemma zero_batch_size_witness :
  train (B := Toy.backend) Toy.dataset8 2 8 0 Toy.world0
  = (Raise ZeroDivisionError, Toy.world0).
Proof.
  apply (zero_batch_size_raises_at_once (B := Toy.backend)). lia.
Defined.

(** X8 on the toy backend, with [epochs = -3]. *)
Lemma nonpositive_epochs_witness :
  train (B := Toy.backend) Toy.dataset8 (-3) 8 4 Toy.world0
  = (Ok tt,
     add_out [GenerateAndSaveImages (generator Toy.world0) (-3)
                (seed Toy.world0)] Toy.world0).
Proof.
  apply (nonpositive_epochs_sample_once (B := Toy.backend)). lia.
Defined.


(** X10 on the toy backend: two epochs over 8 images. *)
Lemma final_sample_witness :
  exists w' new before,
    train (B := Toy.backend) Toy.dataset8 2 8 4 Toy.world0 = (Ok tt, w') /\
    out w' = out Toy.world0 ++ new /\
    samples new = before ++ [(generator w', 2, seed Toy.world0);
                             (generator w', 2, seed Toy.world0)].
Proof.
  destruct (train_completes (B := Toy.backend) Toy.dataset8 2 8 4 2 Toy.world0)
    as [w' E].
  - vm_compute. reflexivity.
  - intros k _. apply toy_batches_ranked.
  - destruct (final_sample_repeats_last_epoch (B := Toy.backend)
                Toy.dataset8 2 8 4 Toy.world0 w' ltac:(lia) E)
      as (new & before & O & S).
    exists w', new, before. repeat split; assumption.
Defined.

(** X11 on the toy backend: two epochs over 8 images. *)
Lemma last_checkpoint_witness :
  exists w' new saved,
    train (B := Toy.backend) Toy.dataset8 2 8 4 Toy.world0 = (Ok tt, w') /\
    out w' = out Toy.world0 ++ new /\
    checkpoints new
      = saved ++ [(checkpoint w', "./training_checkpoints/ckpt"%string)].
Proof.
  destruct (train_completes (B := Toy.backend) Toy.dataset8 2 8 4 2 Toy.world0)
    as [w' E].
  - vm_compute. reflexivity.
  - intros k _. apply toy_batches_ranked.
  - destruct (last_checkpoint_holds_final_state (B := Toy.backend)
                Toy.dataset8 2 8 4 Toy.world0 w' ltac:(lia) E)
      as (new & saved & exported & O & Ck & _).
    exists w', new, saved. repeat split; assumption.
Defined.

(** X12 on the toy backend: three epochs over an iterator of one batch. *)
Lemma exhausted_iterator_witness :
  exists w' new v d,
    train (B := Toy.backend) Toy.one_shot 3 4 4 Toy.world0 = (Ok tt, w') /\
    out w' = out Toy.world0 ++ new /\
    gen_reports new = [v; PyFloat 0; PyFloat 0] /\
    disc_reports new = [Tensor (div d 1); Tensor (div d 1); Tensor (div d 1)].
Proof.
  destruct (exhausted_iterator_repeats_first_report (B := Toy.backend)
              Toy.one_shot 3 4 4 1 Toy.world0)
    as (w' & new & v & d & E & O & G & D & _).
  - lia.
  - vm_compute. reflexivity.
  - discriminate.
  - discriminate.
  - ranked_batches.
  - intros [|k] Hk; [lia|reflexivity].
  - exists w', new, v, d. repeat split; assumption.
Defined.

(** the run behind [exhausted_iterator_witness], computed *)
Example toy_exhausted_iterator :
  let w := snd (train (B := Toy.backend) Toy.one_shot 3 4 4 Toy.world0) in
  gen_reports (out w) = [Tensor 0; PyFloat 0; PyFloat 0] /\
  disc_reports (out w) = [Tensor 12; Tensor 12; Tensor 12] /\
  steps (out w) = 1%nat.
Proof. vm_compute. repeat split. Qed.
